(** * A shallow embedding of the signed-request core of go-cryptocom

    Go packages become Rocq modules: [Errors] (the error values and
    [errors.Is]), [Api] (the wire envelope, [Requester]), [Auth] (the
    signature request and the canonical parameter string) and the
    endpoints of package [cdcexchange]. *)

From Stdlib Require Import ZArith List String Ascii Bool Lia Floats.
From Stdlib Require Import Sorting.Sorted Sorting.Permutation.
Import ListNotations.
Open Scope string_scope.
Open Scope list_scope.
Open Scope Z_scope.
Set Warnings "-register-all".

Local Notation "a +++ b" := (String.append a b) (at level 60, right associativity).

(* ------------------------------------------------------------------ *)
(** ** Decimal text of an integer ([fmt] verb [%d], [strconv]) *)

Fixpoint pos_dec_aux (fuel : nat) (n : Z) (acc : string) : string :=
  match fuel with
  | O => acc
  | S f =>
      let acc' := String (ascii_of_nat (48 + Z.to_nat (n mod 10))) acc in
      if n <? 10 then acc' else pos_dec_aux f (n / 10) acc'
  end.

Definition dec (z : Z) : string :=
  match z with
  | Z0 => "0"
  | Zpos p => pos_dec_aux (Pos.size_nat p) (Zpos p) ""
  | Zneg p => "-" +++ pos_dec_aux (Pos.size_nat p) (Zpos p) ""
  end.

(** [strconv.ParseInt(s, 10, 64)], which [json.Number.Int64] calls:
    an optional sign, then one or more decimal digits, and the value must
    fit in 64 signed bits. *)
Definition digit_val (c : ascii) : option Z :=
  let n := nat_of_ascii c in
  if (48 <=? n)%nat && (n <=? 57)%nat then Some (Z.of_nat (n - 48)) else None.

Fixpoint parse_digits (s : string) (acc : Z) : option Z :=
  match s with
  | EmptyString => Some acc
  | String c s' =>
      match digit_val c with
      | Some d => parse_digits s' (acc * 10 + d)
      | None => None
      end
  end.

Definition parse_uint (s : string) : option Z :=
  match s with
  | EmptyString => None
  | _ => parse_digits s 0
  end.

Definition ParseInt64 (s : string) : option Z :=
  match s with
  | EmptyString => None
  | String c rest =>
      let '(neg, body) :=
        if Ascii.eqb c "+"%char then (false, rest)
        else if Ascii.eqb c "-"%char then (true, rest)
        else (false, s) in
      match parse_uint body with
      | None => None
      | Some un =>
          if neg then (if un <=? 2 ^ 63 then Some (- un) else None)
          else (if un <? 2 ^ 63 then Some un else None)
      end
  end.

(* ------------------------------------------------------------------ *)
(** ** Package [errors] *)

Module Errors.

(** Modelled from the spec: the package [errors] of the repository is
    not in the sources. Its sentinel error values, one per exchange
    error kind the spec names ("illegal IP", "invalid parameter",
    "rate limit exceeded", "insufficient balance", INVALID_DATE_RANGE);
    the test [TestClient_GetTickers_Error] uses [ErrIllegalIP]. *)
Inductive ErrorKind : Type :=
| ErrIllegalIP
| ErrInvalidParameter
| ErrRateLimitExceeded
| ErrInsufficientBalance
| ErrInvalidDateRange.

Definition ErrorKind_eqb (a b : ErrorKind) : bool :=
  match a, b with
  | ErrIllegalIP, ErrIllegalIP
  | ErrInvalidParameter, ErrInvalidParameter
  | ErrRateLimitExceeded, ErrRateLimitExceeded
  | ErrInsufficientBalance, ErrInsufficientBalance
  | ErrInvalidDateRange, ErrInvalidDateRange => true
  | _, _ => false
  end.

(** Go [error] values met on these paths. [ErrorString] is a fresh
    value of [errors.New] or of [fmt.Errorf] without [%w]; [Wrapped] is
    [fmt.Errorf("msg: %w", inner)]; [ResponseError] and
    [InvalidParameterError] are the package's two struct types, and
    the [Err] field of [ResponseError] may be nil ([None]). *)
Inductive error : Type :=
| Sentinel (k : ErrorKind)
| ErrorString (msg : string)
| Wrapped (msg : string) (inner : error)
| ResponseError (Code : Z) (HTTPStatusCode : Z) (Err : option error)
| InvalidParameterError (Parameter' : string) (Reason : string).

(** [errors.Is(e, sentinel k)]: walks the [Unwrap] chain. A fresh
    [ErrorString] is a distinct pointer, never equal to a sentinel.
    Modelled from the spec: [ResponseError] unwraps to its [Err] field
    (the test checks [errors.Is(err, ErrIllegalIP)] through it). *)
Fixpoint Is (e : error) (k : ErrorKind) : bool :=
  match e with
  | Sentinel k' => ErrorKind_eqb k' k
  | ErrorString _ => false
  | Wrapped _ inner => Is inner k
  | ResponseError _ _ (Some inner) => Is inner k
  | ResponseError _ _ None => false
  | InvalidParameterError _ _ => false
  end.

(** [errors.As(e, &ResponseError{})]: the first [ResponseError] on the
    [Unwrap] chain. *)
Fixpoint AsResponseError (e : error) : option (Z * Z * option error) :=
  match e with
  | ResponseError c s err => Some (c, s, err)
  | Wrapped _ inner => AsResponseError inner
  | _ => None
  end.

Section WithCodes.
(** The fixed code-to-kind table of package [errors]; [None] for a
    code the table does not know. *)
Variable codes : Z -> option ErrorKind.

(** Modelled from the spec: [errors.NewResponseError] is not in the
    sources. It keeps the HTTP status and the raw numeric code and
    maps the code through the fixed table; an unrecognised code
    still yields a [ResponseError], with a nil [Err]. *)
Definition NewResponseError (statusCode : Z) (code : Z) : error :=
  ResponseError code statusCode
    (match codes code with
     | Some k => Some (Sentinel k)
     | None => None
     end).
End WithCodes.

End Errors.

Import Errors.

(* ------------------------------------------------------------------ *)
(** ** [Requester.CheckErrorResponse] (internal/api) *)

Module Api.

Section WithCodes.
Variable codes : Z -> option ErrorKind.

(** [func (Requester) CheckErrorResponse(statusCode int,
    responseCode json.Number) error]; [None] is a nil error. *)
Definition CheckErrorResponse (statusCode : Z) (responseCode : string)
  : option error :=
  if statusCode >=? 400 then
    match ParseInt64 responseCode with
    | None =>
        Some (ResponseError 0 statusCode
                (Some (ErrorString ("invalid response code: " +++ responseCode))))
    | Some code => Some (NewResponseError codes statusCode code)
    end
  else None.
End WithCodes.

End Api.

(** The code table exercised by the repository's tests: 10003 is the
    illegal-IP code ([TestClient_GetTickers_Error]). *)
Definition test_codes (code : Z) : option ErrorKind :=
  if code =? 10003 then Some ErrIllegalIP else None.

(* ------------------------------------------------------------------ *)
(** ** JSON-like values: the [interface{}] values of a params map *)

(** The values the endpoints put in [map[string]interface{}]: strings,
    [int]/[int64] ([JInt]), [float64] ([JFloat]) and the JSON forms
    [encoding/json] produces ([JNull] for a nil map, [JObj] for an
    object, [JArr] for an array). A Go map is an association list with
    distinct keys. *)
Inductive JV : Type :=
| JNull
| JBool (b : bool)
| JInt (z : Z)
| JFloat (f : float)
| JStr (s : string)
| JArr (l : list JV)
| JObj (m : list (string * JV)).

Definition params := list (string * JV).

(** [m[k]] read: the value at key [k], if any. *)
Fixpoint map_get (k : string) (m : params) : option JV :=
  match m with
  | [] => None
  | (k', v) :: m' => if String.eqb k k' then Some v else map_get k m'
  end.

(** [m[k] = v]: overwrites an existing key, else adds it. *)
Fixpoint map_set (k : string) (v : JV) (m : params) : params :=
  match m with
  | [] => [(k, v)]
  | (k', v') :: m' =>
      if String.eqb k k' then (k, v) :: m' else (k', v') :: map_set k v m'
  end.

(** [json.Marshal] refuses NaN and infinite floats. *)
Definition float_ok (f : float) : bool :=
  negb (PrimFloat.is_nan f) && negb (PrimFloat.is_infinity f).

Fixpoint json_ok (v : JV) : bool :=
  match v with
  | JFloat f => float_ok f
  | JArr l => forallb json_ok l
  | JObj m => forallb (fun kv => json_ok (snd kv)) m
  | _ => true
  end.

(* ------------------------------------------------------------------ *)
(** ** [time.Time] *)

(** A [time.Time] as nanoseconds since the Unix epoch. The zero
    [time.Time] is January 1, year 1, UTC. *)
Definition Time := Z.
Definition zero_time : Time := -62135596800 * 10 ^ 9.
Definition IsZero (t : Time) : bool := t =? zero_time.
(** [t.UnixMilli()]: [sec*1e3 + nsec/1e6] with [nsec] in [[0, 1e9)],
    the floor of the nanosecond count divided by 1e6. *)
Definition UnixMilli (t : Time) : Z := t / 10 ^ 6.

(* ------------------------------------------------------------------ *)
(** ** [api.Request] and its JSON encoding (internal/api/types.go) *)

Module Request.
Definition V1 := "exchange/v1/".
Definition V2 := "v2/".

(** [type Request struct]; [Params = None] is a nil map. *)
Record Request : Type := mkRequest {
  ID : Z;
  Method : string;
  Nonce : Z;
  Params : option params;
  Signature : string;
  APIKey : string;
  Version : string
}.

(** [json.Marshal(body)] with the struct tags
    [id], [method], [nonce], [params], [sig,omitempty],
    [api_key,omitempty], [version]: the JSON value written, fields in
    struct order. An [omitempty] string is left out when it is [""]. *)
Definition marshal (r : Request) : option JV :=
  let p := match Params r with None => JNull | Some m => JObj m end in
  if json_ok p then
    Some (JObj
      ([("id", JInt (ID r)); ("method", JStr (Method r));
        ("nonce", JInt (Nonce r)); ("params", p)]
       ++ (if String.eqb (Signature r) "" then [] else [("sig", JStr (Signature r))])
       ++ (if String.eqb (APIKey r) "" then [] else [("api_key", JStr (APIKey r))])
       ++ [("version", JStr (Version r))]))
  else None.
End Request.

(** [api.BaseResponse]: the decoded [id], [method] and [code]
    ([json.Number], kept as its text; absent is [""]). *)
Record BaseResponse : Type := mkBaseResponse {
  resp_ID : string;
  resp_Method : string;
  resp_Code : string
}.

(* ------------------------------------------------------------------ *)
(** ** Package [auth]: signature request and canonical parameter string *)

Module Auth.
(** [auth.SignatureRequest], as every private endpoint fills it. *)
Record SignatureRequest : Type := mkSignatureRequest {
  APIKey : string;
  SecretKey : string;
  ID : Z;
  Method : string;
  Timestamp : Z;
  Params : params
}.

(** Bytewise order of strings. *)
Fixpoint str_ltb (a b : string) : bool :=
  match a, b with
  | EmptyString, EmptyString => false
  | EmptyString, String _ _ => true
  | String _ _, EmptyString => false
  | String x a', String y b' =>
      let nx := nat_of_ascii x in
      let ny := nat_of_ascii y in
      (nx <? ny)%nat || ((nx =? ny)%nat && str_ltb a' b')
  end.

Definition key_leb (a b : string * string) : bool :=
  negb (str_ltb (fst b) (fst a)).

Fixpoint insert_by_key (x : string * string) (l : list (string * string))
  : list (string * string) :=
  match l with
  | [] => [x]
  | y :: l' => if key_leb x y then x :: y :: l' else y :: insert_by_key x l'
  end.

Fixpoint sort_by_key (l : list (string * string)) : list (string * string) :=
  match l with
  | [] => []
  | x :: l' => insert_by_key x (sort_by_key l')
  end.

Section Canonical.
(** The plain decimal text of a [float64]; the spec fixes no
    further detail, and no claim here depends on it. *)
Variable float_text : float -> string.

(** Modelled from the spec: the canonicaliser of package [auth] is
    not in the sources. Keys are sorted ascending bytewise at every
    nesting level; each key is followed by its value's text with no
    separator; arrays concatenate their elements in order; a null
    value is omitted with its key; numbers are plain decimal and
    booleans [true]/[false]. Each entry of an object is rendered
    first and the rendered entries are then sorted by key. *)
Fixpoint canonicalize (v : JV) : string :=
  match v with
  | JNull => ""
  | JBool b => if b then "true" else "false"
  | JInt z => dec z
  | JFloat f => float_text f
  | JStr s => s
  | JArr l =>
      (fix arr (l : list JV) : string :=
         match l with
         | [] => ""
         | x :: l' => canonicalize x +++ arr l'
         end) l
  | JObj m =>
      concat "" (map snd (sort_by_key
        ((fix ents (m : list (string * JV)) : list (string * string) :=
            match m with
            | [] => []
            | (k, x) :: m' =>
                (k, match x with JNull => "" | _ => k +++ canonicalize x end)
                  :: ents m'
            end) m)))
  end.

(** The rendered entries of an object, before sorting. *)
Definition entries (m : params) : list (string * string) :=
  map (fun kv => (fst kv, match snd kv with
                          | JNull => ""
                          | x => fst kv +++ canonicalize x
                          end)) m.

(** Modelled from the spec: the signed payload
    [method ++ id ++ apiKey ++ canonicalParams ++ nonce], each field
    in its plain text with no delimiter. *)
Definition sig_payload (r : SignatureRequest) : string :=
  Method r +++ dec (ID r) +++ APIKey r +++ canonicalize (JObj (Params r))
    +++ dec (Timestamp r).

(** Modelled from the spec: the default [auth.Generator] returns the
    lowercase hex HMAC of the payload keyed by the secret key; the
    keyed hash itself is the parameter [hmac_hex]. *)
Definition GenerateSignature (hmac_hex : string -> string -> string)
  (r : SignatureRequest) : string :=
  hmac_hex (SecretKey r) (sig_payload r).
End Canonical.
End Auth.

(* ------------------------------------------------------------------ *)
(** ** HTTP boundary, client and effects *)

(** An outgoing [*http.Request]: verb, URL, the [url.Values] of its
    query in [Add] order, headers and the body ([None] is a nil body;
    a JSON body is recorded as the value [json.Marshal] wrote). *)
Record HttpRequest : Type := mkHttpRequest {
  Verb : string;
  URL : string;
  Query : list (string * string);
  Header : list (string * string);
  Body : option JV
}.

(** What the endpoint gets back: the status code and the decoded
    [api.BaseResponse] ([None] when [json.Unmarshal] fails on the body). *)
Record HttpResponse : Type := mkHttpResponse {
  StatusCode : Z;
  Decoded : option BaseResponse
}.

(** The observable steps of an endpoint call. *)
Inductive event : Type :=
| EvGenerateID
| EvClockNow
| EvSign (r : Auth.SignatureRequest)
| EvHttp (r : HttpRequest).

(** [cdcexchange.Client] with its injected collaborators: the next id of
    the [idGenerator], the instant the [clock] returns, the
    [signatureGenerator], the [requester]'s base URL and HTTP client, and
    whether [http.NewRequestWithContext] accepts a URL. *)
Record Client : Type := mkClient {
  apiKey : string;
  secretKey : string;
  next_id : Z;
  clock_now : Time;
  signatureGenerator : Auth.SignatureRequest -> string + error;
  BaseURL : string;
  HTTPClient : HttpRequest -> HttpResponse + error;
  url_ok : string -> bool
}.

(** A state and error monad: the trace of events so far, and a result
    or a returned Go [error]. *)
Definition M (A : Type) : Type := list event -> list event * (A + error).

Definition ret {A} (a : A) : M A := fun tr => (tr, inl a).
Definition throw {A} (e : error) : M A := fun tr => (tr, inr e).
Definition bind {A B} (m : M A) (f : A -> M B) : M B :=
  fun tr =>
    match m tr with
    | (tr', inl a) => f a tr'
    | (tr', inr e) => (tr', inr e)
    end.
Definition emit (ev : event) : M unit := fun tr => (tr ++ [ev], inl tt).

Notation "x <- m ;; k" := (bind m (fun x => k))
  (at level 61, m at next level, right associativity).
Notation "m ;;; k" := (bind m (fun _ => k))
  (at level 61, right associativity).

(** [if err != nil { return fmt.Errorf("msg: %w", err) }] *)
Definition wrap {A} (msg : string) (m : M A) : M A :=
  fun tr =>
    match m tr with
    | (tr', inr e) => (tr', inr (Wrapped msg e))
    | r => r
    end.

Definition from_sum {A} (r : A + error) : M A :=
  match r with inl a => ret a | inr e => throw e end.

(* ------------------------------------------------------------------ *)
(** ** Endpoint request types *)

Module DepositHistory.
Definition methodGetDepositHistory := "private/get-deposit-history".
(** [GetDepositHistoryRequest] *)
Record GetDepositHistoryRequest : Type := mkReq {
  Currency : string;
  Start : Time;
  End : Time;
  PageSize : Z;
  Page : Z;
  Status : string
}.
(** The params map built in [GetDepositHistory], lines 95-110. *)
Definition build_params (req : GetDepositHistoryRequest) : params :=
  let p0 : params := [] in
  let p1 := if String.eqb (Currency req) "" then p0
            else map_set "currency" (JStr (Currency req)) p0 in
  let p2 := if PageSize req =? 0 then p1
            else map_set "page_size" (JInt (PageSize req)) p1 in
  let p3 := if IsZero (Start req) then p2
            else map_set "start_ts" (JInt (UnixMilli (Start req))) p2 in
  let p4 := if IsZero (End req) then p3
            else map_set "end_ts" (JInt (UnixMilli (End req))) p3 in
  let p5 := map_set "page" (JInt (Page req)) p4 in
  if String.eqb (Status req) "" then p5
  else map_set "status" (JStr (Status req)) p5.
End DepositHistory.

Module WithdrawalHistory.
Definition methodGetWithdrawalHistory := "private/get-withdrawal-history".
(** [GetWithdrawalHistoryRequest] *)
Record GetWithdrawalHistoryRequest : Type := mkReq {
  Currency : string;
  Start : Time;
  End : Time;
  PageSize : Z;
  Page : Z;
  Status : string
}.
(** The params map built in [GetWithdrawalHistory], lines 98-113. *)
Definition build_params (req : GetWithdrawalHistoryRequest) : params :=
  let p0 : params := [] in
  let p1 := if String.eqb (Currency req) "" then p0
            else map_set "currency" (JStr (Currency req)) p0 in
  let p2 := if PageSize req =? 0 then p1
            else map_set "page_size" (JInt (PageSize req)) p1 in
  let p3 := if IsZero (Start req) then p2
            else map_set "start_ts" (JInt (UnixMilli (Start req))) p2 in
  let p4 := if IsZero (End req) then p3
            else map_set "end_ts" (JInt (UnixMilli (End req))) p3 in
  let p5 := map_set "page" (JInt (Page req)) p4 in
  if String.eqb (Status req) "" then p5
  else map_set "status" (JStr (Status req)) p5.
End WithdrawalHistory.

Module CreateWithdrawal.
Definition methodCreateWithdrawal := "private/create-withdrawal".
(** [CreateWithdrawalRequest] *)
Record CreateWithdrawalRequest : Type := mkReq {
  Currency : string;
  Amount : float;
  Address : string;
  ClientWid : string;
  AddressTag : string;
  NetworkId : string
}.
(** The params map built in [CreateWithdrawal], lines 72-90;
    [req.Amount != 0] is the IEEE comparison (true for NaN). *)
Definition build_params (req : CreateWithdrawalRequest) : params :=
  let p0 : params := [] in
  let p1 := if String.eqb (Currency req) "" then p0
            else map_set "currency" (JStr (Currency req)) p0 in
  let p2 := if String.eqb (ClientWid req) "" then p1
            else map_set "client_wid" (JStr (ClientWid req)) p1 in
  let p3 := if PrimFloat.eqb (Amount req) 0%float then p2
            else map_set "amount" (JFloat (Amount req)) p2 in
  let p4 := if String.eqb (Address req) "" then p3
            else map_set "address" (JStr (Address req)) p3 in
  let p5 := if String.eqb (AddressTag req) "" then p4
            else map_set "address_tag" (JStr (AddressTag req)) p4 in
  if String.eqb (NetworkId req) "" then p5
  else map_set "network_id" (JStr (NetworkId req)) p5.
End CreateWithdrawal.

Module DepositAddress.
Definition methodGetDepositAddress := "private/get-deposit-address".
(** [GetDepositAddressRequest] (the field the endpoint reads). *)
Record GetDepositAddressRequest : Type := mkReq { Currency : string }.
Definition build_params (req : GetDepositAddressRequest) : params :=
  if String.eqb (Currency req) "" then []
  else map_set "currency" (JStr (Currency req)) [].
End DepositAddress.

Module BalanceHistory.
Definition methodUserBalanceHistory := "private/user-balance-history".
(** [UserBalanceHistoryRequest] *)
Record UserBalanceHistoryRequest : Type := mkReq {
  Timeframe : string;
  EndTime : Time;
  Limit : Z
}.
Definition build_params (req : UserBalanceHistoryRequest) : params :=
  let p0 : params := [] in
  let p1 := if String.eqb (Timeframe req) "" then p0
            else map_set "timeframe" (JStr (Timeframe req)) p0 in
  let p2 := if Limit req =? 0 then p1
            else map_set "limit" (JInt (Limit req)) p1 in
  if IsZero (EndTime req) then p2
  else map_set "end_time" (JInt (UnixMilli (EndTime req))) p2.
End BalanceHistory.

Definition methodGetInstruments := "public/get-instruments".
Definition methodGetBook := "public/get-book".
Definition methodGetTicker := "public/get-tickers".

Section Client.
Variable codes : Z -> option ErrorKind.
Variable c : Client.

(** [c.idGenerator.Generate()] *)
Definition Generate : M Z := emit EvGenerateID ;;; ret (next_id c).
(** [c.clock.Now().UnixMilli()] *)
Definition NowMilli : M Z := emit EvClockNow ;;; ret (UnixMilli (clock_now c)).
(** [c.signatureGenerator.GenerateSignature(r)] *)
Definition sign (r : Auth.SignatureRequest) : M string :=
  emit (EvSign r) ;;; from_sum (signatureGenerator c r).
(** [c.requester.Client.Do(req)] *)
Definition Do (r : HttpRequest) : M HttpResponse :=
  emit (EvHttp r) ;;; from_sum (HTTPClient c r).

Definition json_header := [("Content-Type", "application/json")].

(** [Requester.doRequest]: marshal the envelope as the body, pick the
    version segment, build and send the request, decode the reply. *)
Definition doRequest (httpMethod : string) (body : Request.Request)
  (method : string) : M (Z * BaseResponse) :=
  match Request.marshal body with
  | None => throw (Wrapped "failed to marshal request body"
                     (ErrorString "json: unsupported value"))
  | Some b =>
      let version := if String.eqb (Request.Version body) "" then Request.V1
                     else Request.Version body in
      let url := BaseURL c +++ version +++ method in
      if negb (url_ok c url) then
        throw (Wrapped "failed to create request" (ErrorString "invalid URL"))
      else
        res <- wrap "failed to do request"
                 (Do (mkHttpRequest httpMethod url [] json_header (Some b))) ;;
        match Decoded res with
        | None => throw (Wrapped "failed to unmarshal response body"
                           (ErrorString "invalid JSON"))
        | Some br => ret (StatusCode res, br)
        end
  end.

Definition Post := doRequest "POST".
Definition Get := doRequest "GET".

(** [if err := c.requester.CheckErrorResponse(status, code); err != nil
    { return nil, fmt.Errorf("error received in response: %w", err) }] *)
Definition check (status : Z) (br : BaseResponse) : M unit :=
  match Api.CheckErrorResponse codes status (resp_Code br) with
  | Some e => throw (Wrapped "error received in response" e)
  | None => ret tt
  end.

(** The tail every private endpoint writes out: sign the request,
    build the envelope from the same id, method, timestamp, params and
    api key, POST it and check the response. [version] is [""] except
    in [UserBalanceHistory], which sets [api.V1]. *)
Definition signAndPost (method version : string) (id timestamp : Z)
  (ps : params) : M unit :=
  signature <- wrap "failed to create signature"
    (sign (Auth.mkSignatureRequest (apiKey c) (secretKey c) id method timestamp ps)) ;;
  let body := Request.mkRequest id method timestamp (Some ps) signature
                (apiKey c) version in
  sr <- wrap "failed to execute post request" (Post body method) ;;
  check (fst sr) (snd sr).

(** [GetDepositHistory] *)
Definition GetDepositHistory (req : DepositHistory.GetDepositHistoryRequest)
  : M unit :=
  if DepositHistory.PageSize req <? 0 then
    throw (InvalidParameterError "req.PageSize" "cannot be less than 0")
  else if DepositHistory.PageSize req >? 200 then
    throw (InvalidParameterError "req.PageSize" "cannot be greater than 200")
  else
    id <- Generate ;;
    timestamp <- NowMilli ;;
    signAndPost DepositHistory.methodGetDepositHistory "" id timestamp
      (DepositHistory.build_params req).

(** [GetWithdrawalHistory] *)
Definition GetWithdrawalHistory
  (req : WithdrawalHistory.GetWithdrawalHistoryRequest) : M unit :=
  if WithdrawalHistory.PageSize req <? 0 then
    throw (InvalidParameterError "req.PageSize" "cannot be less than 0")
  else if WithdrawalHistory.PageSize req >? 200 then
    throw (InvalidParameterError "req.PageSize" "cannot be greater than 200")
  else
    id <- Generate ;;
    timestamp <- NowMilli ;;
    signAndPost WithdrawalHistory.methodGetWithdrawalHistory "" id timestamp
      (WithdrawalHistory.build_params req).

(** [CreateWithdrawal] *)
Definition CreateWithdrawal (req : CreateWithdrawal.CreateWithdrawalRequest)
  : M unit :=
  id <- Generate ;;
  timestamp <- NowMilli ;;
  signAndPost CreateWithdrawal.methodCreateWithdrawal "" id timestamp
    (CreateWithdrawal.build_params req).

(** [GetDepositAddress] *)
Definition GetDepositAddress (req : DepositAddress.GetDepositAddressRequest)
  : M unit :=
  id <- Generate ;;
  timestamp <- NowMilli ;;
  signAndPost DepositAddress.methodGetDepositAddress "" id timestamp
    (DepositAddress.build_params req).

(** [UserBalanceHistory] (its envelope sets [Version: api.V1]) *)
Definition UserBalanceHistory (req : BalanceHistory.UserBalanceHistoryRequest)
  : M unit :=
  id <- Generate ;;
  timestamp <- NowMilli ;;
  signAndPost BalanceHistory.methodUserBalanceHistory Request.V1 id timestamp
    (BalanceHistory.build_params req).

(** [GetInstruments]: an unsigned envelope sent through [requester.Get]. *)
Definition GetInstruments : M unit :=
  id <- Generate ;;
  nonce <- NowMilli ;;
  let body := Request.mkRequest id methodGetInstruments nonce None "" "" "" in
  sr <- wrap "failed to execute post request" (Get body methodGetInstruments) ;;
  check (fst sr) (snd sr).

(** The reply handling [GetBook] and [GetTickers] write out. *)
Definition decodeAndCheck (res : HttpResponse) : M unit :=
  match Decoded res with
  | None => throw (Wrapped "failed to unmarshal response body"
                     (ErrorString "invalid JSON"))
  | Some br => check (StatusCode res) br
  end.

(** [GetBook]: a GET built by hand with a nil body. *)
Definition GetBook (instrument : string) (depth : Z) : M unit :=
  let url := BaseURL c +++ Request.V2 +++ methodGetBook in
  if negb (url_ok c url) then
    throw (Wrapped "failed to create request" (ErrorString "invalid URL"))
  else
    let q := [("instrument_name", instrument)]
             ++ (if depth >? 0 then [("depth", dec depth)] else []) in
    res <- wrap "failed to do request"
             (Do (mkHttpRequest "GET" url q json_header None)) ;;
    decodeAndCheck res.

(** [GetTickers]: a GET built by hand with a nil body. *)
Definition GetTickers (instrument : string) : M unit :=
  let url := BaseURL c +++ Request.V1 +++ methodGetTicker in
  if negb (url_ok c url) then
    throw (Wrapped "failed to create request" (ErrorString "invalid URL"))
  else
    let q := if String.eqb instrument "" then []
             else [("instrument_name", instrument)] in
    res <- wrap "failed to do request"
             (Do (mkHttpRequest "GET" url q json_header None)) ;;
    decodeAndCheck res.
End Client.

(* ------------------------------------------------------------------ *)
(** ** Client construction and options (client.go, export_test) *)

Definition uatSandboxBaseURL := "https://uat-api.3ona.co/v2/".
Definition productionBaseURL := "https://api.crypto.com/v2/".

(** [type ClientOption], a function of a client pointer returning an
    error: the option works on the client in place, so it returns the
    client as it left it and the error it returned. *)
Definition ClientOption := Client -> Client * option error.

Definition set_keys (k s : string) (c : Client) : Client :=
  mkClient k s (next_id c) (clock_now c) (signatureGenerator c) (BaseURL c)
    (HTTPClient c) (url_ok c).
Definition set_BaseURL (u : string) (c : Client) : Client :=
  mkClient (apiKey c) (secretKey c) (next_id c) (clock_now c) (signatureGenerator c) u
    (HTTPClient c) (url_ok c).
Definition set_HTTPClient (h : HttpRequest -> HttpResponse + error) (c : Client) : Client :=
  mkClient (apiKey c) (secretKey c) (next_id c) (clock_now c) (signatureGenerator c)
    (BaseURL c) h (url_ok c).
Definition set_idGenerator (g : Z) (c : Client) : Client :=
  mkClient (apiKey c) (secretKey c) g (clock_now c) (signatureGenerator c)
    (BaseURL c) (HTTPClient c) (url_ok c).
Definition set_signatureGenerator (g : Auth.SignatureRequest -> string + error)
  (c : Client) : Client :=
  mkClient (apiKey c) (secretKey c) (next_id c) (clock_now c) g
    (BaseURL c) (HTTPClient c) (url_ok c).
Definition set_clock (t : Time) (c : Client) : Client :=
  mkClient (apiKey c) (secretKey c) (next_id c) t (signatureGenerator c)
    (BaseURL c) (HTTPClient c) (url_ok c).

(** [WithProductionEnvironment] *)
Definition WithProductionEnvironment : ClientOption :=
  fun c => (set_BaseURL productionBaseURL c, None).
(** [WithUATEnvironment] *)
Definition WithUATEnvironment : ClientOption :=
  fun c => (set_BaseURL uatSandboxBaseURL c, None).
(** [WithHTTPClient]; [None] is a nil [*http.Client]. *)
Definition WithHTTPClient (h : option (HttpRequest -> HttpResponse + error)) : ClientOption :=
  fun c => match h with
           | None => (c, Some (InvalidParameterError "httpClient" "cannot be empty"))
           | Some h => (set_HTTPClient h c, None)
           end.
(** [WithIDGenerator]; the generator is the id it hands out, [None] nil. *)
Definition WithIDGenerator (g : option Z) : ClientOption :=
  fun c => match g with
           | None => (c, Some (InvalidParameterError "idGenerator" "cannot be empty"))
           | Some g => (set_idGenerator g c, None)
           end.
(** [WithSignatureGenerator] *)
Definition WithSignatureGenerator
  (g : option (Auth.SignatureRequest -> string + error)) : ClientOption :=
  fun c => match g with
           | None => (c, Some (InvalidParameterError "signatureGenerator" "cannot be empty"))
           | Some g => (set_signatureGenerator g c, None)
           end.
(** [WithClock]; the clock is the instant it reports, [None] nil. *)
Definition WithClock (t : option Time) : ClientOption :=
  fun c => match t with
           | None => (c, Some (InvalidParameterError "clock" "cannot be empty"))
           | Some t => (set_clock t c, None)
           end.
(** [WithBaseURL] *)
Definition WithBaseURL (url : string) : ClientOption :=
  fun c => if String.eqb url "" then (c, Some (InvalidParameterError "url" "cannot be empty"))
           else (set_BaseURL url c, None).

(** [for _, opt := range opts { if err := opt(c); err != nil { return err } }] *)
Fixpoint apply_opts (opts : list ClientOption) (c : Client) : Client * option error :=
  match opts with
  | [] => (c, None)
  | opt :: rest =>
      let '(c', err) := opt c in
      match err with
      | Some e => (c', Some e)
      | None => apply_opts rest c'
      end
  end.

(** [UpdateConfig]: the client as the call leaves it, and its error. *)
Definition UpdateConfig (c : Client) (apiKey secretKey : string)
  (opts : list ClientOption) : Client * option error :=
  if String.eqb apiKey "" then
    (c, Some (InvalidParameterError "apiKey" "cannot be empty"))
  else if String.eqb secretKey "" then
    (c, Some (InvalidParameterError "secretKey" "cannot be empty"))
  else apply_opts opts (set_keys apiKey secretKey c).

(** [New]: the defaults ([&id.Generator{}], [&auth.Generator{}], the real
    clock, [http.DefaultClient]) are the collaborators given here; the
    base URL starts as [productionBaseURL]. [None] is a nil [*Client]. *)
Definition New (default_id : Z) (default_clock : Time)
  (default_sig : Auth.SignatureRequest -> string + error)
  (default_http : HttpRequest -> HttpResponse + error) (urls : string -> bool)
  (apiKey secretKey : string) (opts : list ClientOption) : option Client * option error :=
  let c := mkClient "" "" default_id default_clock default_sig productionBaseURL
             default_http urls in
  match UpdateConfig c apiKey secretKey opts with
  | (_, Some e) => (None, Some e)
  | (c', None) => (Some c', None)
  end.




(** A string whose first character is a decimal digit. *)
Definition starts_with_digit (s : string) : Prop :=
  match s with
  | String d _ => digit_val d <> None
  | EmptyString => False
  end.

Definition is_http (ev : event) : bool :=
  match ev with EvHttp _ => true | _ => false end.

(** The number of HTTP requests in a trace. *)
Definition http_count (tr : list event) : nat := List.length (filter is_http tr).

(* ------------------------------------------------------------------ *)
(** ** Observations on envelopes and traces *)

(** A top-level field of a JSON object. *)
Definition field (k : string) (j : JV) : option JV :=
  match j with JObj m => map_get k m | _ => None end.

(** The [params] object of a transmitted JSON body. *)
Definition body_params (hr : HttpRequest) : option params :=
  match Body hr with
  | Some j => match field "params" j with Some (JObj p) => Some p | _ => None end
  | None => None
  end.

(** The signature request every private endpoint builds. *)
Definition signed_request (c : Client) (method : string) (id ts : Z)
  (ps : params) : Auth.SignatureRequest :=
  Auth.mkSignatureRequest (apiKey c) (secretKey c) id method ts ps.

(** The events [signAndPost] appends to the trace. *)
Definition signAndPost_events (c : Client) (method version : string)
  (id ts : Z) (ps : params) : list event :=
  let sr := signed_request c method id ts ps in
  EvSign sr ::
  match signatureGenerator c sr with
  | inr _ => []
  | inl s =>
      match Request.marshal (Request.mkRequest id method ts (Some ps) s (apiKey c) version) with
      | None => []
      | Some b =>
          let url := BaseURL c
                     +++ (if String.eqb version "" then Request.V1 else version)
                     +++ method in
          if url_ok c url then [EvHttp (mkHttpRequest "POST" url [] json_header (Some b))]
          else []
      end
  end.

(** The transmitted body is the JSON encoding of an envelope whose id,
    method, nonce, params and api key are those of the signature
    request (the signature and version fields are free). *)
Definition envelope_matches (sr : Auth.SignatureRequest) (hr : HttpRequest) : Prop :=
  exists s v b,
    Request.marshal (Request.mkRequest (Auth.ID sr) (Auth.Method sr)
      (Auth.Timestamp sr) (Some (Auth.Params sr)) s (Auth.APIKey sr) v) = Some b /\
    Body hr = Some b.

(** Every transmitted request of a trace carries, as its JSON body, the
    envelope of a signature request made in that same trace. *)
Definition signed_as_sent (tr : list event) : Prop :=
  forall hr, In (EvHttp hr) tr -> exists sr, In (EvSign sr) tr /\ envelope_matches sr hr.

(** An option that leaves the api key and the secret key alone. *)
Definition keeps_keys (opt : ClientOption) : Prop :=
  forall c, apiKey (fst (opt c)) = apiKey c /\ secretKey (fst (opt c)) = secretKey c.

(* ------------------------------------------------------------------ *)
(** ** Concrete inputs *)

(** A client with fixed collaborators, as the tests build with
    [WithClock], [WithIDGenerator], [WithSignatureGenerator] and
    [WithHTTPClient]: id 1, the clock at 1668066540018 ms, a constant
    signature and a server that answers [status] with [code]. *)
Definition test_client (status : Z) (code : string) : Client :=
  mkClient "k" "some secret key" 1 (1668066540018 * 10 ^ 6)
    (fun _ => inl "signature") "https://api.crypto.com/v2/"
    (fun _ => inl (mkHttpResponse status (Some (mkBaseResponse "1" "" code))))
    (fun _ => true).

(** Requests with the times, status and other fields left at their
    zero values. *)
Definition deposit_req (currency : string) (page_size page : Z)
  : DepositHistory.GetDepositHistoryRequest :=
  DepositHistory.mkReq currency zero_time zero_time page_size page "".

Definition withdrawal_req (currency : string) (page_size page : Z)
  : WithdrawalHistory.GetWithdrawalHistoryRequest :=
  WithdrawalHistory.mkReq currency zero_time zero_time page_size page "".

Definition ok_client := test_client 200 "0".

Definition withdrawal_order : CreateWithdrawal.CreateWithdrawalRequest :=
  CreateWithdrawal.mkReq "BTC" 1.5%float "addr" "" "" "".

(** A withdrawal whose amount is NaN. *)
Definition nan_order : CreateWithdrawal.CreateWithdrawalRequest :=
  CreateWithdrawal.mkReq "BTC" PrimFloat.nan "addr" "" "" "".

Definition unsigned_envelope : Request.Request :=
  Request.mkRequest 7 methodGetInstruments 1668066540018 None "" "" "".

Definition key_le (a b : string * string) : Prop := Auth.key_leb a b = true.

Definition run {A} (m : M A) : list event * (A + error) := m [].

Example parse_examples :
  ParseInt64 "10003" = Some 10003 /\ ParseInt64 "-7" = Some (-7) /\
  ParseInt64 "" = None /\ ParseInt64 "1x" = None /\
  ParseInt64 "9223372036854775808" = None /\
  ParseInt64 "-9223372036854775808" = Some (- 2 ^ 63).
Proof. vm_compute. repeat split. Qed.

Example dec_examples : dec 0 = "0" /\ dec 1668066540018 = "1668066540018" /\ dec (-45) = "-45".
Proof. vm_compute. repeat split. Qed.

(* ------------------------------------------------------------------ *)
(** ** Response classification *)

Lemma CheckErrorResponse_below_400 codes st rc :
  st < 400 -> Api.CheckErrorResponse codes st rc = None.
Proof.
  intro H. unfold Api.CheckErrorResponse. rewrite Z.geb_leb.
  destruct (Z.leb_spec 400 st); [lia | reflexivity].
Qed.

Lemma CheckErrorResponse_from_400 codes st rc :
  st >= 400 ->
  Api.CheckErrorResponse codes st rc =
  Some (match ParseInt64 rc with
        | None => ResponseError 0 st
                    (Some (ErrorString ("invalid response code: " +++ rc)))
        | Some code => NewResponseError codes st code
        end).
Proof.
  intro H. unfold Api.CheckErrorResponse. rewrite Z.geb_leb.
  destruct (Z.leb_spec 400 st); [|lia].
  destruct (ParseInt64 rc); reflexivity.
Qed.

Example classify_examples :
  Api.CheckErrorResponse test_codes 418 "10003" =
    Some (ResponseError 10003 418 (Some (Sentinel ErrIllegalIP))) /\
  Api.CheckErrorResponse test_codes 200 "10003" = None /\
  Api.CheckErrorResponse test_codes 500 "" =
    Some (ResponseError 0 500 (Some (ErrorString "invalid response code: "))).
Proof. vm_compute. repeat split. Qed.

(** C2 (as stated, refuted): the classification does not succeed
    exactly when the status is below 400 and the code is 0 or absent:
    status 200 with code 10003 is a success. *)
Lemma C2_counterexample :
  ~ (forall st rc,
       Api.CheckErrorResponse test_codes st rc = None <->
       st < 400 /\ (rc = "" \/ ParseInt64 rc = Some 0)).
Proof.
  intro H. destruct (H 200 "10003") as [H1 _].
  destruct (H1 eq_refl) as [_ [E | E]]; vm_compute in E; discriminate.
Qed.

(** C2 (amended): classification succeeds exactly when the HTTP status
    is below 400, whatever the response code; from status 400 on, a code
    that parses as an integer gives a [ResponseError] carrying that code,
    the status, and the table's kind (nil for an unrecognised code). *)
Theorem C2_classification codes st rc :
  (Api.CheckErrorResponse codes st rc = None <-> st < 400) /\
  (st >= 400 -> forall code, ParseInt64 rc = Some code ->
   exists e, Api.CheckErrorResponse codes st rc = Some e /\
     AsResponseError e =
       Some (code, st, match codes code with
                       | Some k => Some (Sentinel k)
                       | None => None
                       end)).
Proof.
  split.
  - split.
    + intro H. destruct (Z.lt_ge_cases st 400) as [|Hge]; [assumption|].
      rewrite (CheckErrorResponse_from_400 codes st rc ltac:(lia)) in H. discriminate.
    + apply CheckErrorResponse_below_400.
  - intros Hge code Hp. rewrite (CheckErrorResponse_from_400 codes st rc Hge), Hp.
    eexists. split; reflexivity.
Qed.

Lemma C2_classification_witness :
  (Api.CheckErrorResponse test_codes 418 "10003" = None <-> 418 < 400) /\
  (418 >= 400 -> forall code, ParseInt64 "10003" = Some code ->
   exists e, Api.CheckErrorResponse test_codes 418 "10003" = Some e /\
     AsResponseError e =
       Some (code, 418, match test_codes code with
                        | Some k => Some (Sentinel k)
                        | None => None
                        end)).
Proof. exact (C2_classification test_codes 418 "10003"). Defined.

(** C4: from status 400 on, a response code that does not parse as an
    integer gives a [ResponseError] with the HTTP status, code 0 and a
    fresh "invalid response code" error: no sentinel matches it under
    [errors.Is], and it differs from the error of every parsed code. *)
Theorem C4_malformed_code codes st rc :
  st >= 400 -> ParseInt64 rc = None ->
  exists e, Api.CheckErrorResponse codes st rc = Some e /\
    AsResponseError e =
      Some (0, st, Some (ErrorString ("invalid response code: " +++ rc))) /\
    (forall k, Errors.Is e k = false) /\
    (forall code, e <> NewResponseError codes st code).
Proof.
  intros Hge Hp. rewrite (CheckErrorResponse_from_400 codes st rc Hge), Hp.
  eexists. split; [reflexivity|]. split; [reflexivity|]. split.
  - intro k. reflexivity.
  - intros code E. unfold NewResponseError in E.
    destruct (codes code); inversion E.
Qed.

Lemma C4_malformed_code_witness :
  exists e, Api.CheckErrorResponse test_codes 502 "oops" = Some e /\
    AsResponseError e =
      Some (0, 502, Some (ErrorString ("invalid response code: " +++ "oops"))) /\
    (forall k, Errors.Is e k = false) /\
    (forall code, e <> NewResponseError test_codes 502 code).
Proof.
  apply C4_malformed_code; [lia | reflexivity].
Defined.

(** C7: below status 400 the classification returns success (a nil
    error) whatever the response code, parsable or not. *)
Theorem C7_success_below_400 codes st rc :
  st < 400 -> Api.CheckErrorResponse codes st rc = None.
Proof. apply CheckErrorResponse_below_400. Qed.

Lemma C7_success_below_400_witness :
  Api.CheckErrorResponse test_codes 200 "10003" = None /\
  Api.CheckErrorResponse test_codes 302 "not a number" = None.
Proof.
  split; apply C7_success_below_400; lia.
Defined.

(** C9: a recognised code from status 400 on gives an error that
    [errors.Is] matches against its kind's sentinel and no other, also
    once wrapped by the endpoint's [fmt.Errorf("...: %w")], and that
    still carries the numeric code and the HTTP status. *)
Theorem C9_sentinel_identity codes st rc code k :
  st >= 400 -> ParseInt64 rc = Some code -> codes code = Some k ->
  exists e, Api.CheckErrorResponse codes st rc = Some e /\
    Errors.Is e k = true /\
    Errors.Is (Wrapped "error received in response" e) k = true /\
    (forall k', Errors.Is e k' = true -> k' = k) /\
    AsResponseError e = Some (code, st, Some (Sentinel k)).
Proof.
  intros Hge Hp Hk.
  rewrite (CheckErrorResponse_from_400 codes st rc Hge), Hp.
  unfold NewResponseError. rewrite Hk.
  eexists. split; [reflexivity|].
  assert (Hkk : ErrorKind_eqb k k = true) by (destruct k; reflexivity).
  split; [exact Hkk|]. split; [exact Hkk|]. split; [|reflexivity].
  intros k' H. destruct k, k'; simpl in H; congruence.
Qed.

Lemma C9_sentinel_identity_witness :
  exists e, Api.CheckErrorResponse test_codes 418 "10003" = Some e /\
    Errors.Is e ErrIllegalIP = true /\
    Errors.Is (Wrapped "error received in response" e) ErrIllegalIP = true /\
    (forall k', Errors.Is e k' = true -> k' = ErrIllegalIP) /\
    AsResponseError e = Some (10003, 418, Some (Sentinel ErrIllegalIP)).
Proof.
  apply C9_sentinel_identity; [lia | reflexivity | reflexivity].
Defined.

(* ------------------------------------------------------------------ *)
(** ** Traces of the private endpoints *)

Lemma check_trace codes st br tr :
  fst (check codes st br tr) = tr.
Proof. unfold check. destruct (Api.CheckErrorResponse codes st (resp_Code br)); reflexivity. Qed.

Lemma signAndPost_trace codes c method version id ts ps tr :
  fst (signAndPost codes c method version id ts ps tr) =
  tr ++ signAndPost_events c method version id ts ps.
Proof.
  unfold signAndPost, signAndPost_events, signed_request, sign, Post,
    doRequest, Do.
  unfold bind, wrap, emit, from_sum, ret, throw.
  destruct (signatureGenerator c _) as [s|e]; simpl; [|reflexivity].
  destruct (Request.marshal _) as [b|]; simpl; [|reflexivity].
  destruct (url_ok c _); simpl; [|reflexivity].
  destruct (HTTPClient c _) as [res|e]; simpl; rewrite <- ?app_assoc; [|reflexivity].
  destruct (Decoded res); simpl; [|reflexivity].
  apply check_trace.
Qed.

Lemma prefix_signAndPost codes c method version ps :
  fst (run (id <- Generate c ;; ts <- NowMilli c ;;
            signAndPost codes c method version id ts ps)) =
  [EvGenerateID; EvClockNow] ++
  signAndPost_events c method version (next_id c) (UnixMilli (clock_now c)) ps.
Proof.
  unfold run, Generate, NowMilli, bind, emit, ret. simpl.
  apply signAndPost_trace.
Qed.

Lemma GetDepositHistory_trace codes c req :
  fst (run (GetDepositHistory codes c req)) =
  if (DepositHistory.PageSize req <? 0) || (DepositHistory.PageSize req >? 200)
  then []
  else [EvGenerateID; EvClockNow] ++
       signAndPost_events c DepositHistory.methodGetDepositHistory ""
         (next_id c) (UnixMilli (clock_now c)) (DepositHistory.build_params req).
Proof.
  unfold GetDepositHistory.
  destruct (DepositHistory.PageSize req <? 0); [reflexivity|].
  destruct (DepositHistory.PageSize req >? 200); [reflexivity|].
  apply prefix_signAndPost.
Qed.

Lemma GetWithdrawalHistory_trace codes c req :
  fst (run (GetWithdrawalHistory codes c req)) =
  if (WithdrawalHistory.PageSize req <? 0) || (WithdrawalHistory.PageSize req >? 200)
  then []
  else [EvGenerateID; EvClockNow] ++
       signAndPost_events c WithdrawalHistory.methodGetWithdrawalHistory ""
         (next_id c) (UnixMilli (clock_now c)) (WithdrawalHistory.build_params req).
Proof.
  unfold GetWithdrawalHistory.
  destruct (WithdrawalHistory.PageSize req <? 0); [reflexivity|].
  destruct (WithdrawalHistory.PageSize req >? 200); [reflexivity|].
  apply prefix_signAndPost.
Qed.

Lemma events_signed_as_sent c method version id ts ps :
  signed_as_sent ([EvGenerateID; EvClockNow] ++
                  signAndPost_events c method version id ts ps).
Proof.
  intros hr Hin. exists (signed_request c method id ts ps).
  simpl in Hin. destruct Hin as [H|[H|Hin]]; try discriminate.
  unfold signAndPost_events in *. simpl in Hin.
  destruct Hin as [H|Hin]; [discriminate|].
  split; [simpl; auto|].
  destruct (signatureGenerator c _) as [s|e]; [|contradiction].
  destruct (Request.marshal _) as [b|] eqn:Em; [|contradiction].
  destruct (url_ok c _); [|contradiction].
  destruct Hin as [H|[]]. inversion H; subst hr.
  exists s, version, b. split; [exact Em | reflexivity].
Qed.

Lemma signed_as_sent_nil : signed_as_sent [].
Proof. intros hr []. Qed.

(** The fields [json.Marshal] writes for an envelope. *)
Lemma marshal_fields r j :
  Request.marshal r = Some j ->
  field "sig" j = (if String.eqb (Request.Signature r) "" then None
                   else Some (JStr (Request.Signature r))) /\
  field "api_key" j = (if String.eqb (Request.APIKey r) "" then None
                       else Some (JStr (Request.APIKey r))) /\
  field "version" j = Some (JStr (Request.Version r)) /\
  field "id" j = Some (JInt (Request.ID r)) /\
  field "method" j = Some (JStr (Request.Method r)) /\
  field "nonce" j = Some (JInt (Request.Nonce r)) /\
  field "params" j = Some (match Request.Params r with
                           | None => JNull
                           | Some m => JObj m
                           end).
Proof.
  unfold Request.marshal. destruct (json_ok _); [|discriminate].
  intro H. inversion H; subst j. clear H.
  destruct (String.eqb (Request.Signature r) ""), (String.eqb (Request.APIKey r) "");
    simpl; repeat split.
Qed.

Lemma map_get_set k k' v m :
  map_get k (map_set k' v m) = if String.eqb k k' then Some v else map_get k m.
Proof.
  induction m as [|[k0 v0] m IH]; simpl.
  - reflexivity.
  - destruct (String.eqb k' k0) eqn:E1; simpl.
    + apply String.eqb_eq in E1. subst k0. destruct (String.eqb k k'); reflexivity.
    + destruct (String.eqb k k0) eqn:E2; [|exact IH].
      * apply String.eqb_eq in E2. subst k0.
        destruct (String.eqb k k') eqn:E3; [|reflexivity].
        apply String.eqb_eq in E3. subst k'. rewrite String.eqb_refl in E1. discriminate.
Qed.

Lemma events_sign c method version id ts ps sr :
  In (EvSign sr) ([EvGenerateID; EvClockNow] ++
                  signAndPost_events c method version id ts ps) ->
  sr = signed_request c method id ts ps.
Proof.
  simpl. intros [H|[H|[H|Hin]]]; try discriminate.
  - inversion H. reflexivity.
  - destruct (signatureGenerator c _); [|contradiction].
    destruct (Request.marshal _); [|contradiction].
    destruct (url_ok c _); [|contradiction].
    destruct Hin as [H|[]]. discriminate.
Qed.

Lemma events_body_params c method version id ts ps hr :
  In (EvHttp hr) ([EvGenerateID; EvClockNow] ++
                  signAndPost_events c method version id ts ps) ->
  body_params hr = Some ps.
Proof.
  simpl. intros [H|[H|[H|Hin]]]; try discriminate.
  destruct (signatureGenerator c _); [|contradiction].
  destruct (Request.marshal _) as [b|] eqn:Em; [|contradiction].
  destruct (url_ok c _); [|contradiction].
  destruct Hin as [H|[]]. inversion H; subst hr.
  unfold body_params; simpl.
  destruct (marshal_fields _ _ Em) as (_ & _ & _ & _ & _ & _ & Hp).
  rewrite Hp. reflexivity.
Qed.

Ltac lookup_params :=
  repeat match goal with
         | |- context [if ?b then _ else _] =>
             lazymatch b with
             | String.eqb (String _ _) (String _ _) => fail
             | _ => destruct b
             end
         end;
  rewrite ?map_get_set; reflexivity.

Lemma deposit_params_shape req :
  let p := DepositHistory.build_params req in
  map_get "page" p = Some (JInt (DepositHistory.Page req)) /\
  map_get "currency" p = (if String.eqb (DepositHistory.Currency req) "" then None
                          else Some (JStr (DepositHistory.Currency req))) /\
  map_get "page_size" p = (if DepositHistory.PageSize req =? 0 then None
                           else Some (JInt (DepositHistory.PageSize req))) /\
  map_get "start_ts" p = (if IsZero (DepositHistory.Start req) then None
                          else Some (JInt (UnixMilli (DepositHistory.Start req)))) /\
  map_get "end_ts" p = (if IsZero (DepositHistory.End req) then None
                        else Some (JInt (UnixMilli (DepositHistory.End req)))) /\
  map_get "status" p = (if String.eqb (DepositHistory.Status req) "" then None
                        else Some (JStr (DepositHistory.Status req))).
Proof.
  unfold DepositHistory.build_params; cbv zeta.
  repeat split; lookup_params.
Qed.

Lemma withdrawal_params_shape req :
  let p := WithdrawalHistory.build_params req in
  map_get "page" p = Some (JInt (WithdrawalHistory.Page req)) /\
  map_get "currency" p = (if String.eqb (WithdrawalHistory.Currency req) "" then None
                          else Some (JStr (WithdrawalHistory.Currency req))) /\
  map_get "page_size" p = (if WithdrawalHistory.PageSize req =? 0 then None
                           else Some (JInt (WithdrawalHistory.PageSize req))) /\
  map_get "start_ts" p = (if IsZero (WithdrawalHistory.Start req) then None
                          else Some (JInt (UnixMilli (WithdrawalHistory.Start req)))) /\
  map_get "end_ts" p = (if IsZero (WithdrawalHistory.End req) then None
                        else Some (JInt (UnixMilli (WithdrawalHistory.End req)))) /\
  map_get "status" p = (if String.eqb (WithdrawalHistory.Status req) "" then None
                        else Some (JStr (WithdrawalHistory.Status req))).
Proof.
  unfold WithdrawalHistory.build_params; cbv zeta.
  repeat split; lookup_params.
Qed.

(* ------------------------------------------------------------------ *)
(** ** Claims on the private endpoints *)

(** C3: in [GetDepositHistory] and [GetWithdrawalHistory], a page size
    below 0 or above 200 returns an [InvalidParameterError] on
    [req.PageSize] with an empty trace (no id, no clock read, no
    signing, no HTTP request); a page size of 0 leaves the [page_size]
    key out of the params of every transmitted request. *)
Theorem C3_page_size_bounds codes c :
  (forall req, DepositHistory.PageSize req < 0 \/ DepositHistory.PageSize req > 200 ->
   exists reason, run (GetDepositHistory codes c req) =
                  ([], inr (InvalidParameterError "req.PageSize" reason))) /\
  (forall req, DepositHistory.PageSize req = 0 ->
   forall hr, In (EvHttp hr) (fst (run (GetDepositHistory codes c req))) ->
   exists p, body_params hr = Some p /\ map_get "page_size" p = None) /\
  (forall req, WithdrawalHistory.PageSize req < 0 \/ WithdrawalHistory.PageSize req > 200 ->
   exists reason, run (GetWithdrawalHistory codes c req) =
                  ([], inr (InvalidParameterError "req.PageSize" reason))) /\
  (forall req, WithdrawalHistory.PageSize req = 0 ->
   forall hr, In (EvHttp hr) (fst (run (GetWithdrawalHistory codes c req))) ->
   exists p, body_params hr = Some p /\ map_get "page_size" p = None).
Proof.
  repeat split.
  - intros req H. unfold run, GetDepositHistory.
    destruct (Z.ltb_spec (DepositHistory.PageSize req) 0); [eexists; reflexivity|].
    rewrite Z.gtb_ltb.
    destruct (Z.ltb_spec 200 (DepositHistory.PageSize req)); [eexists; reflexivity|].
    lia.
  - intros req H0 hr Hin. rewrite GetDepositHistory_trace in Hin.
    rewrite H0 in Hin. simpl in Hin.
    exists (DepositHistory.build_params req). split.
    + exact (events_body_params _ _ _ _ _ _ _ Hin).
    + destruct (deposit_params_shape req) as (_ & _ & Hps & _). rewrite Hps, H0. reflexivity.
  - intros req H. unfold run, GetWithdrawalHistory.
    destruct (Z.ltb_spec (WithdrawalHistory.PageSize req) 0); [eexists; reflexivity|].
    rewrite Z.gtb_ltb.
    destruct (Z.ltb_spec 200 (WithdrawalHistory.PageSize req)); [eexists; reflexivity|].
    lia.
  - intros req H0 hr Hin. rewrite GetWithdrawalHistory_trace in Hin.
    rewrite H0 in Hin. simpl in Hin.
    exists (WithdrawalHistory.build_params req). split.
    + exact (events_body_params _ _ _ _ _ _ _ Hin).
    + destruct (withdrawal_params_shape req) as (_ & _ & Hps & _). rewrite Hps, H0. reflexivity.
Qed.

Lemma C3_page_size_bounds_witness :
  (exists reason, run (GetDepositHistory test_codes ok_client (deposit_req "BTC" (-1) 0)) =
                  ([], inr (InvalidParameterError "req.PageSize" reason))) /\
  (exists reason, run (GetDepositHistory test_codes ok_client (deposit_req "BTC" 201 0)) =
                  ([], inr (InvalidParameterError "req.PageSize" reason))) /\
  (forall hr, In (EvHttp hr) (fst (run (GetDepositHistory test_codes ok_client
                                          (deposit_req "BTC" 0 0)))) ->
   exists p, body_params hr = Some p /\ map_get "page_size" p = None) /\
  (exists reason, run (GetWithdrawalHistory test_codes ok_client (withdrawal_req "" (-1) 3)) =
                  ([], inr (InvalidParameterError "req.PageSize" reason))) /\
  (exists reason, run (GetWithdrawalHistory test_codes ok_client (withdrawal_req "" 201 3)) =
                  ([], inr (InvalidParameterError "req.PageSize" reason))) /\
  (forall hr, In (EvHttp hr) (fst (run (GetWithdrawalHistory test_codes ok_client
                                          (withdrawal_req "" 0 3)))) ->
   exists p, body_params hr = Some p /\ map_get "page_size" p = None).
Proof.
  destruct (C3_page_size_bounds test_codes ok_client) as (A & B & C & D).
  split; [apply A; simpl; lia|].
  split; [apply A; simpl; lia|].
  split; [apply B; reflexivity|].
  split; [apply C; simpl; lia|].
  split; [apply C; simpl; lia|].
  apply D; reflexivity.
Defined.

(** The page-size-0 requests above do reach the network. *)
Example page_size_zero_is_sent :
  exists hr, In (EvHttp hr) (fst (run (GetDepositHistory test_codes ok_client
                                         (deposit_req "BTC" 0 0)))) /\
             body_params hr = Some [("currency", JStr "BTC"); ("page", JInt 0)].
Proof. eexists. split; [vm_compute; right; right; right; left; reflexivity | reflexivity]. Qed.

Lemma private_trace_signed_as_sent codes c method version ps :
  signed_as_sent (fst (run (id <- Generate c ;; ts <- NowMilli c ;;
                            signAndPost codes c method version id ts ps))).
Proof. rewrite prefix_signAndPost. apply events_signed_as_sent. Qed.

(** C6: in every private endpoint ([GetDepositHistory],
    [GetWithdrawalHistory], [CreateWithdrawal], [GetDepositAddress],
    [UserBalanceHistory]), each transmitted request's body is the JSON
    encoding of an envelope whose id, method, nonce, params and api key
    are exactly those of a signature request made in the same call. *)
Theorem C6_signed_fields_transmitted codes c :
  (forall req hr, In (EvHttp hr) (fst (run (GetDepositHistory codes c req))) ->
   exists sr, In (EvSign sr) (fst (run (GetDepositHistory codes c req))) /\
              envelope_matches sr hr) /\
  (forall req hr, In (EvHttp hr) (fst (run (GetWithdrawalHistory codes c req))) ->
   exists sr, In (EvSign sr) (fst (run (GetWithdrawalHistory codes c req))) /\
              envelope_matches sr hr) /\
  (forall req hr, In (EvHttp hr) (fst (run (CreateWithdrawal codes c req))) ->
   exists sr, In (EvSign sr) (fst (run (CreateWithdrawal codes c req))) /\
              envelope_matches sr hr) /\
  (forall req hr, In (EvHttp hr) (fst (run (GetDepositAddress codes c req))) ->
   exists sr, In (EvSign sr) (fst (run (GetDepositAddress codes c req))) /\
              envelope_matches sr hr) /\
  (forall req hr, In (EvHttp hr) (fst (run (UserBalanceHistory codes c req))) ->
   exists sr, In (EvSign sr) (fst (run (UserBalanceHistory codes c req))) /\
              envelope_matches sr hr).
Proof.
  split; [|split; [|split; [|split]]]; intro req.
  - rewrite GetDepositHistory_trace.
    destruct (_ || _); [apply signed_as_sent_nil | apply events_signed_as_sent].
  - rewrite GetWithdrawalHistory_trace.
    destruct (_ || _); [apply signed_as_sent_nil | apply events_signed_as_sent].
  - apply private_trace_signed_as_sent.
  - apply private_trace_signed_as_sent.
  - apply private_trace_signed_as_sent.
Qed.

Lemma C6_signed_fields_transmitted_witness :
  let tr := fst (run (CreateWithdrawal test_codes ok_client withdrawal_order)) in
  (exists hr, In (EvHttp hr) tr) /\
  (forall hr, In (EvHttp hr) tr -> exists sr, In (EvSign sr) tr /\ envelope_matches sr hr).
Proof.
  split.
  - eexists. vm_compute. right. right. right. left. reflexivity.
  - destruct (C6_signed_fields_transmitted test_codes ok_client) as (_ & _ & H & _).
    apply H.
Defined.

(** C8: in the JSON encoding of an envelope, [sig] and [api_key] are
    present exactly when their values are non-empty, [version] is always
    written (also when empty), and [id], [method], [nonce] and [params]
    are always written ([params] as null for a nil map). *)
Theorem C8_envelope_fields r j :
  Request.marshal r = Some j ->
  field "sig" j = (if String.eqb (Request.Signature r) "" then None
                   else Some (JStr (Request.Signature r))) /\
  field "api_key" j = (if String.eqb (Request.APIKey r) "" then None
                       else Some (JStr (Request.APIKey r))) /\
  field "version" j = Some (JStr (Request.Version r)) /\
  field "id" j = Some (JInt (Request.ID r)) /\
  field "method" j = Some (JStr (Request.Method r)) /\
  field "nonce" j = Some (JInt (Request.Nonce r)) /\
  field "params" j = Some (match Request.Params r with
                           | None => JNull
                           | Some m => JObj m
                           end).
Proof. apply marshal_fields. Qed.

Lemma C8_envelope_fields_witness :
  exists j, Request.marshal unsigned_envelope = Some j /\
  field "sig" j = None /\ field "api_key" j = None /\
  field "version" j = Some (JStr "") /\
  field "id" j = Some (JInt 7) /\
  field "method" j = Some (JStr methodGetInstruments) /\
  field "nonce" j = Some (JInt 1668066540018) /\
  field "params" j = Some JNull.
Proof.
  eexists. split; [reflexivity|].
  exact (C8_envelope_fields unsigned_envelope _ eq_refl).
Defined.

(** C10: the params signed by [GetDepositHistory] and
    [GetWithdrawalHistory] always hold [page] with the request's page,
    also when it is 0, while [currency], [page_size], [start_ts],
    [end_ts] and [status] are there only when the field is non-empty,
    non-zero or a non-zero time; so the signed params never equal a
    params map without a [page] key. *)
Theorem C10_page_always_signed codes c :
  (forall req sr, In (EvSign sr) (fst (run (GetDepositHistory codes c req))) ->
   let p := Auth.Params sr in
   map_get "page" p = Some (JInt (DepositHistory.Page req)) /\
   map_get "currency" p = (if String.eqb (DepositHistory.Currency req) "" then None
                           else Some (JStr (DepositHistory.Currency req))) /\
   map_get "page_size" p = (if DepositHistory.PageSize req =? 0 then None
                            else Some (JInt (DepositHistory.PageSize req))) /\
   map_get "start_ts" p = (if IsZero (DepositHistory.Start req) then None
                           else Some (JInt (UnixMilli (DepositHistory.Start req)))) /\
   map_get "end_ts" p = (if IsZero (DepositHistory.End req) then None
                         else Some (JInt (UnixMilli (DepositHistory.End req)))) /\
   map_get "status" p = (if String.eqb (DepositHistory.Status req) "" then None
                         else Some (JStr (DepositHistory.Status req))) /\
   (forall p', map_get "page" p' = None -> p <> p')) /\
  (forall req sr, In (EvSign sr) (fst (run (GetWithdrawalHistory codes c req))) ->
   let p := Auth.Params sr in
   map_get "page" p = Some (JInt (WithdrawalHistory.Page req)) /\
   map_get "currency" p = (if String.eqb (WithdrawalHistory.Currency req) "" then None
                           else Some (JStr (WithdrawalHistory.Currency req))) /\
   map_get "page_size" p = (if WithdrawalHistory.PageSize req =? 0 then None
                            else Some (JInt (WithdrawalHistory.PageSize req))) /\
   map_get "start_ts" p = (if IsZero (WithdrawalHistory.Start req) then None
                           else Some (JInt (UnixMilli (WithdrawalHistory.Start req)))) /\
   map_get "end_ts" p = (if IsZero (WithdrawalHistory.End req) then None
                         else Some (JInt (UnixMilli (WithdrawalHistory.End req)))) /\
   map_get "status" p = (if String.eqb (WithdrawalHistory.Status req) "" then None
                         else Some (JStr (WithdrawalHistory.Status req))) /\
   (forall p', map_get "page" p' = None -> p <> p')).
Proof.
  split; intros req sr Hin; cbv zeta.
  - rewrite GetDepositHistory_trace in Hin.
    destruct (_ || _); [contradiction|].
    apply events_sign in Hin. subst sr. simpl.
    destruct (deposit_params_shape req) as (Hpage & H1 & H2 & H3 & H4 & H5).
    repeat split; try assumption.
    intros p' Hp' E. rewrite <- E, Hpage in Hp'. discriminate.
  - rewrite GetWithdrawalHistory_trace in Hin.
    destruct (_ || _); [contradiction|].
    apply events_sign in Hin. subst sr. simpl.
    destruct (withdrawal_params_shape req) as (Hpage & H1 & H2 & H3 & H4 & H5).
    repeat split; try assumption.
    intros p' Hp' E. rewrite <- E, Hpage in Hp'. discriminate.
Qed.

Lemma C10_page_always_signed_witness :
  let tr := fst (run (GetDepositHistory test_codes ok_client (deposit_req "" 0 0))) in
  (exists sr, In (EvSign sr) tr) /\
  (forall sr, In (EvSign sr) tr ->
   map_get "page" (Auth.Params sr) = Some (JInt 0) /\
   map_get "page_size" (Auth.Params sr) = None /\
   map_get "currency" (Auth.Params sr) = None /\
   (forall p', map_get "page" p' = None -> Auth.Params sr <> p')).
Proof.
  split.
  - eexists. vm_compute. right. right. left. reflexivity.
  - intros sr Hin.
    destruct (C10_page_always_signed test_codes ok_client) as [A _].
    destruct (A _ sr Hin) as (H1 & H2 & H3 & _ & _ & _ & H7).
    split; [exact H1|]. split; [exact H3|]. split; [exact H2|]. exact H7.
Defined.

(* ------------------------------------------------------------------ *)
(** ** Public endpoints *)

Lemma decodeAndCheck_trace codes res tr :
  fst (decodeAndCheck codes res tr) = tr.
Proof.
  unfold decodeAndCheck. destruct (Decoded res); [apply check_trace | reflexivity].
Qed.

Lemma GetBook_trace codes c instrument depth :
  fst (run (GetBook codes c instrument depth)) =
  let url := BaseURL c +++ Request.V2 +++ methodGetBook in
  if url_ok c url then
    [EvHttp (mkHttpRequest "GET" url
               ([("instrument_name", instrument)]
                ++ (if depth >? 0 then [("depth", dec depth)] else []))
               json_header None)]
  else [].
Proof.
  unfold run, GetBook, Do. cbv zeta.
  destruct (url_ok c _); simpl; [|reflexivity].
  unfold bind, wrap, emit, from_sum, ret, throw. simpl.
  destruct (HTTPClient c _); simpl; [apply decodeAndCheck_trace | reflexivity].
Qed.

Lemma GetTickers_trace codes c instrument :
  fst (run (GetTickers codes c instrument)) =
  let url := BaseURL c +++ Request.V1 +++ methodGetTicker in
  if url_ok c url then
    [EvHttp (mkHttpRequest "GET" url
               (if String.eqb instrument "" then [] else [("instrument_name", instrument)])
               json_header None)]
  else [].
Proof.
  unfold run, GetTickers, Do. cbv zeta.
  destruct (url_ok c _); simpl; [|reflexivity].
  unfold bind, wrap, emit, from_sum, ret, throw. simpl.
  destruct (HTTPClient c _); simpl; [apply decodeAndCheck_trace | reflexivity].
Qed.

Lemma GetInstruments_trace codes c :
  fst (run (GetInstruments codes c)) =
  let url := BaseURL c +++ Request.V1 +++ methodGetInstruments in
  [EvGenerateID; EvClockNow] ++
  if url_ok c url then
    [EvHttp (mkHttpRequest "GET" url [] json_header
       (Some (JObj [("id", JInt (next_id c)); ("method", JStr methodGetInstruments);
                    ("nonce", JInt (UnixMilli (clock_now c))); ("params", JNull);
                    ("version", JStr "")])))]
  else [].
Proof.
  unfold run, GetInstruments, Generate, NowMilli, Get, doRequest, Do.
  unfold bind, wrap, emit, from_sum, ret, throw. simpl.
  destruct (url_ok c _); simpl; [|reflexivity].
  destruct (HTTPClient c _) as [res|]; simpl; [|reflexivity].
  destruct (Decoded res); simpl; [apply check_trace | reflexivity].
Qed.

(** C5 (as stated, refuted): [GetInstruments] is a public endpoint whose
    GET request does carry a body. *)
Lemma C5_counterexample :
  exists hr, In (EvHttp hr) (fst (run (GetInstruments test_codes ok_client))) /\
             Verb hr = "GET" /\ Body hr <> None.
Proof.
  eexists. split; [vm_compute; right; right; left; reflexivity|].
  split; [reflexivity | discriminate].
Qed.

(** C5 (amended): [GetBook] and [GetTickers] send a GET whose parameters
    are URL query values and whose body is nil; [GetInstruments] takes
    no parameters and sends a GET through [requester.Get] whose body is
    the unsigned JSON envelope (id, method, nonce, params null, version
    ""). None of the three computes a signature, and no [sig] or
    [api_key] field is sent. *)
Theorem C5_public_requests codes c :
  (forall instrument depth hr,
     In (EvHttp hr) (fst (run (GetBook codes c instrument depth))) ->
     Verb hr = "GET" /\ Body hr = None /\
     Query hr = [("instrument_name", instrument)]
                ++ (if depth >? 0 then [("depth", dec depth)] else [])) /\
  (forall instrument depth sr,
     ~ In (EvSign sr) (fst (run (GetBook codes c instrument depth)))) /\
  (forall instrument hr,
     In (EvHttp hr) (fst (run (GetTickers codes c instrument))) ->
     Verb hr = "GET" /\ Body hr = None /\
     Query hr = (if String.eqb instrument "" then []
                 else [("instrument_name", instrument)])) /\
  (forall instrument sr,
     ~ In (EvSign sr) (fst (run (GetTickers codes c instrument)))) /\
  (forall hr,
     In (EvHttp hr) (fst (run (GetInstruments codes c))) ->
     Verb hr = "GET" /\ Query hr = [] /\
     Body hr = Some (JObj [("id", JInt (next_id c));
                           ("method", JStr methodGetInstruments);
                           ("nonce", JInt (UnixMilli (clock_now c)));
                           ("params", JNull); ("version", JStr "")])) /\
  (forall sr, ~ In (EvSign sr) (fst (run (GetInstruments codes c)))).
Proof.
  split; [|split; [|split; [|split; [|split]]]].
  - intros i d hr. rewrite GetBook_trace. cbv zeta.
    destruct (url_ok c _); [|intros []].
    intros [H|[]]. inversion H. repeat split.
  - intros i d sr. rewrite GetBook_trace. cbv zeta.
    destruct (url_ok c _); [|intros []].
    intros [H|[]]. discriminate.
  - intros i hr. rewrite GetTickers_trace. cbv zeta.
    destruct (url_ok c _); [|intros []].
    intros [H|[]]. inversion H. repeat split.
  - intros i sr. rewrite GetTickers_trace. cbv zeta.
    destruct (url_ok c _); [|intros []].
    intros [H|[]]. discriminate.
  - intros hr. rewrite GetInstruments_trace. cbv zeta.
    destruct (url_ok c _); simpl.
    + intros [H|[H|[H|[]]]]; try discriminate. inversion H. repeat split.
    + intros [H|[H|[]]]; discriminate.
  - intros sr. rewrite GetInstruments_trace. cbv zeta.
    destruct (url_ok c _); simpl.
    + intros [H|[H|[H|[]]]]; discriminate.
    + intros [H|[H|[]]]; discriminate.
Qed.

Lemma C5_public_requests_witness :
  (forall hr, In (EvHttp hr) (fst (run (GetBook test_codes ok_client "BTC_USDT" 10))) ->
     Verb hr = "GET" /\ Body hr = None /\
     Query hr = [("instrument_name", "BTC_USDT"); ("depth", "10")]) /\
  (forall hr, In (EvHttp hr) (fst (run (GetTickers test_codes ok_client ""))) ->
     Verb hr = "GET" /\ Body hr = None /\ Query hr = []) /\
  (forall hr, In (EvHttp hr) (fst (run (GetInstruments test_codes ok_client))) ->
     Verb hr = "GET" /\ Query hr = [] /\
     Body hr = Some (JObj [("id", JInt 1); ("method", JStr methodGetInstruments);
                           ("nonce", JInt 1668066540018); ("params", JNull);
                           ("version", JStr "")])).
Proof.
  destruct (C5_public_requests test_codes ok_client) as (A & _ & B & _ & C & _).
  split; [|split].
  - intros hr H. exact (A "BTC_USDT" 10 hr H).
  - intros hr H. exact (B "" hr H).
  - intros hr H. exact (C hr H).
Defined.

(* ------------------------------------------------------------------ *)
(** ** Canonical parameter string *)

Section CanonicalProofs.
Variable ft : float -> string.

Lemma canonicalize_obj m :
  Auth.canonicalize ft (JObj m) =
  concat "" (map snd (Auth.sort_by_key (Auth.entries ft m))).
Proof.
  simpl. do 3 f_equal.
  induction m as [|[k x] m IH]; simpl; [reflexivity|].
  rewrite IH. destruct x; reflexivity.
Qed.
End CanonicalProofs.

Lemma str_ltb_asym a b : Auth.str_ltb a b = true -> Auth.str_ltb b a = false.
Proof.
  revert b. induction a as [|x a IH]; intros [|y b]; simpl; try discriminate; auto.
  intro H. apply orb_true_iff in H.
  destruct (Nat.ltb_spec (nat_of_ascii y) (nat_of_ascii x));
  destruct (Nat.ltb_spec (nat_of_ascii x) (nat_of_ascii y)); simpl in *;
  destruct (Nat.eqb_spec (nat_of_ascii y) (nat_of_ascii x));
  destruct (Nat.eqb_spec (nat_of_ascii x) (nat_of_ascii y)); simpl in *;
  try lia; try reflexivity.
  destruct H as [H|H]; [discriminate|]. apply IH; assumption.
Qed.

Lemma key_leb_total a b : Auth.key_leb a b = false -> Auth.key_leb b a = true.
Proof.
  unfold Auth.key_leb. intro H. apply negb_false_iff in H.
  apply str_ltb_asym in H. rewrite H. reflexivity.
Qed.

Lemma insert_by_key_sorted x l :
  Sorted key_le l -> Sorted key_le (Auth.insert_by_key x l).
Proof.
  induction l as [|y l IH]; simpl; intro H.
  - repeat constructor.
  - destruct (Auth.key_leb x y) eqn:E.
    + constructor; [assumption | constructor; exact E].
    + inversion H as [|? ? Hl Hhd]; subst.
      constructor; [apply IH; assumption|].
      destruct l as [|z l]; simpl.
      * constructor. apply key_leb_total. exact E.
      * destruct (Auth.key_leb x z).
        -- constructor. apply key_leb_total. exact E.
        -- inversion Hhd. constructor. assumption.
Qed.

Lemma sort_by_key_sorted l : Sorted key_le (Auth.sort_by_key l).
Proof.
  induction l; simpl; [constructor | apply insert_by_key_sorted; assumption].
Qed.

Lemma insert_by_key_perm x l : Permutation (x :: l) (Auth.insert_by_key x l).
Proof.
  induction l as [|y l IH]; simpl; [reflexivity|].
  destruct (Auth.key_leb x y); [reflexivity|].
  rewrite perm_swap. constructor. exact IH.
Qed.

Lemma sort_by_key_perm l : Permutation l (Auth.sort_by_key l).
Proof.
  induction l as [|x l IH]; simpl; [reflexivity|].
  rewrite <- insert_by_key_perm. constructor. exact IH.
Qed.

Example canonical_examples :
  Auth.canonicalize (fun _ => "") (JObj [("page", JInt 0); ("currency", JStr "BTC")])
    = "currencyBTCpage0" /\
  Auth.canonicalize (fun _ => "")
    (JObj [("b", JArr [JInt 2; JInt 1]); ("a", JObj [("z", JBool true); ("y", JNull)])])
    = "aztrueb21".
Proof. vm_compute. split; reflexivity. Qed.

(** C1: the params {"currency": "BTC", "page": 0} (those
    [GetDepositHistory] builds for currency BTC, page 0) canonicalise to
    "currencyBTCpage0"; the signing input of the call with method
    "private/get-deposit-history", id 1, api key "k" and nonce
    1668066540018 is the concatenation of the five texts; and for every
    params map the canonical string concatenates each rendered entry
    (key immediately followed by the value's text) in bytewise ascending
    key order, the value texts being canonicalised the same way at every
    nesting level. *)
Theorem C1_canonical_signing_input (ft : float -> string) :
  Auth.canonicalize ft (JObj (DepositHistory.build_params (deposit_req "BTC" 0 0)))
    = "currencyBTCpage0" /\
  Auth.canonicalize ft (JObj [("page", JInt 0); ("currency", JStr "BTC")])
    = "currencyBTCpage0" /\
  (forall sr,
     In (EvSign sr) (fst (run (GetDepositHistory test_codes ok_client
                                 (deposit_req "BTC" 0 0)))) ->
     Auth.Method sr = DepositHistory.methodGetDepositHistory /\
     Auth.ID sr = 1 /\ Auth.APIKey sr = "k" /\ Auth.Timestamp sr = 1668066540018 /\
     Auth.sig_payload ft sr =
       DepositHistory.methodGetDepositHistory +++ "1" +++ "k" +++ "currencyBTCpage0"
         +++ "1668066540018") /\
  (forall m,
     Auth.canonicalize ft (JObj m) =
       concat "" (map snd (Auth.sort_by_key (Auth.entries ft m))) /\
     Sorted key_le (Auth.sort_by_key (Auth.entries ft m)) /\
     Permutation (Auth.entries ft m) (Auth.sort_by_key (Auth.entries ft m))).
Proof.
  split; [reflexivity|]. split; [reflexivity|]. split.
  - intros sr Hin. rewrite GetDepositHistory_trace in Hin.
    apply events_sign in Hin. subst sr.
    repeat split; reflexivity.
  - intro m. split; [apply canonicalize_obj|].
    split; [apply sort_by_key_sorted | apply sort_by_key_perm].
Qed.

Lemma C1_canonical_signing_input_witness :
  (exists sr, In (EvSign sr) (fst (run (GetDepositHistory test_codes ok_client
                                          (deposit_req "BTC" 0 0))))) /\
  (forall sr,
     In (EvSign sr) (fst (run (GetDepositHistory test_codes ok_client
                                 (deposit_req "BTC" 0 0)))) ->
     Auth.sig_payload (fun _ => "") sr =
       "private/get-deposit-history" +++ "1" +++ "k" +++ "currencyBTCpage0"
         +++ "1668066540018").
Proof.
  split.
  - eexists. vm_compute. right. right. left. reflexivity.
  - intros sr Hin.
    destruct (C1_canonical_signing_input (fun _ => "")) as (_ & _ & H & _).
    destruct (H sr Hin) as (_ & _ & _ & _ & E). exact E.
Defined.

(* ------------------------------------------------------------------ *)
(** ** Client configuration *)

Lemma apply_opts_app o1 o2 c :
  apply_opts (o1 ++ o2) c =
  match apply_opts o1 c with
  | (c', None) => apply_opts o2 c'
  | r => r
  end.
Proof.
  revert c. induction o1 as [|o o1 IH]; intro c; simpl; [reflexivity|].
  destruct (o c) as [c' [e|]]; [reflexivity | apply IH].
Qed.

(** [UpdateConfig] with an empty api key or secret key returns the
    matching [InvalidParameterError] and leaves the client untouched:
    no option is run. *)
Theorem UpdateConfig_empty_key c k s opts :
  (k = "" -> UpdateConfig c k s opts =
             (c, Some (InvalidParameterError "apiKey" "cannot be empty"))) /\
  (k <> "" -> s = "" -> UpdateConfig c k s opts =
             (c, Some (InvalidParameterError "secretKey" "cannot be empty"))).
Proof.
  unfold UpdateConfig. split.
  - intros ->. reflexivity.
  - intros Hk ->. apply String.eqb_neq in Hk. rewrite Hk. reflexivity.
Qed.

Lemma UpdateConfig_empty_key_witness :
  UpdateConfig ok_client "" "x" [WithUATEnvironment] =
    (ok_client, Some (InvalidParameterError "apiKey" "cannot be empty")) /\
  UpdateConfig ok_client "k2" "" [WithUATEnvironment] =
    (ok_client, Some (InvalidParameterError "secretKey" "cannot be empty")).
Proof.
  destruct (UpdateConfig_empty_key ok_client "" "x" [WithUATEnvironment]) as [A _].
  destruct (UpdateConfig_empty_key ok_client "k2" "" [WithUATEnvironment]) as [_ B].
  split; [apply A; reflexivity | apply B; [discriminate | reflexivity]].
Defined.

Lemma apply_opts_keys opts c :
  Forall keeps_keys opts ->
  apiKey (fst (apply_opts opts c)) = apiKey c /\
  secretKey (fst (apply_opts opts c)) = secretKey c.
Proof.
  intro H. revert c. induction H as [|o opts Ho Hs IH]; intro c; simpl; [auto|].
  destruct (Ho c) as [Ha Hb].
  destruct (o c) as [c' [e|]]; simpl in *; [auto|].
  destruct (IH c') as [IH1 IH2]. rewrite IH1, IH2. auto.
Qed.

(** With non-empty keys, [UpdateConfig] stores the keys before it runs
    the options: even when an option then fails, the client already
    holds the new api key and secret key (and what earlier options
    set), as long as the options leave the keys alone. *)
Theorem UpdateConfig_keys_first c k s opts :
  k <> "" -> s <> "" -> Forall keeps_keys opts ->
  UpdateConfig c k s opts = apply_opts opts (set_keys k s c) /\
  apiKey (fst (UpdateConfig c k s opts)) = k /\
  secretKey (fst (UpdateConfig c k s opts)) = s.
Proof.
  intros Hk Hs Ho. unfold UpdateConfig.
  apply String.eqb_neq in Hk, Hs. rewrite Hk, Hs.
  destruct (apply_opts_keys opts (set_keys k s c) Ho) as [A B].
  split; [reflexivity|]. split; assumption.
Qed.

(** Every option of the repository keeps the keys. *)
Lemma options_keep_keys u h g sg t :
  keeps_keys WithProductionEnvironment /\ keeps_keys WithUATEnvironment /\
  keeps_keys (WithHTTPClient h) /\ keeps_keys (WithIDGenerator g) /\
  keeps_keys (WithSignatureGenerator sg) /\ keeps_keys (WithClock t) /\
  keeps_keys (WithBaseURL u).
Proof.
  unfold keeps_keys; repeat split; unfold WithHTTPClient, WithIDGenerator,
    WithSignatureGenerator, WithClock, WithBaseURL;
  repeat match goal with
         | |- context [match ?x with _ => _ end] => destruct x
         end; reflexivity.
Qed.

Lemma UpdateConfig_keys_first_witness :
  let r := UpdateConfig ok_client "k2" "s2" [WithUATEnvironment; WithHTTPClient None] in
  snd r = Some (InvalidParameterError "httpClient" "cannot be empty") /\
  BaseURL (fst r) = uatSandboxBaseURL /\
  UpdateConfig ok_client "k2" "s2" [WithUATEnvironment; WithHTTPClient None] =
    apply_opts [WithUATEnvironment; WithHTTPClient None] (set_keys "k2" "s2" ok_client) /\
  apiKey (fst r) = "k2" /\ secretKey (fst r) = "s2".
Proof.
  destruct (options_keep_keys "" None None None None) as (_ & U & H & _).
  split; [reflexivity|]. split; [reflexivity|].
  apply UpdateConfig_keys_first; [discriminate | discriminate |].
  constructor; [exact U | constructor; [exact H | constructor]].
Defined.

(** [UpdateConfig] with a concatenation of option lists runs the first
    list and, only if it succeeded, the second one on the result. *)
Theorem UpdateConfig_app c k s o1 o2 :
  UpdateConfig c k s (o1 ++ o2) =
  match UpdateConfig c k s o1 with
  | (c', None) => apply_opts o2 c'
  | r => r
  end.
Proof.
  unfold UpdateConfig.
  destruct (String.eqb k ""); [reflexivity|].
  destruct (String.eqb s ""); [reflexivity|].
  apply apply_opts_app.
Qed.

(** [New] returns a client exactly when it returns no error; with no
    option and non-empty keys it is the client with the given keys, the
    default collaborators and the production base URL; any client it
    returns holds the given keys, which are non-empty. *)
Theorem New_result did dclk dsig dhttp urls k s opts :
  Forall keeps_keys opts ->
  (forall c e, New did dclk dsig dhttp urls k s opts <> (Some c, Some e)) /\
  (New did dclk dsig dhttp urls k s opts = (None, None) -> False) /\
  (forall c, New did dclk dsig dhttp urls k s opts = (Some c, None) ->
     k <> "" /\ s <> "" /\ apiKey c = k /\ secretKey c = s) /\
  (k <> "" -> s <> "" ->
     New did dclk dsig dhttp urls k s [] =
     (Some (mkClient k s did dclk dsig productionBaseURL dhttp urls), None)).
Proof.
  intro Ho. unfold New.
  split; [|split; [|split]].
  - intros c e. destruct (UpdateConfig _ k s opts) as [c' [e'|]]; discriminate.
  - destruct (UpdateConfig _ k s opts) as [c' [e'|]]; discriminate.
  - intros c H.
    destruct (String.eqb k "") eqn:Ek.
    { unfold UpdateConfig in H. rewrite Ek in H. discriminate. }
    destruct (String.eqb s "") eqn:Es.
    { unfold UpdateConfig in H. rewrite Ek, Es in H. discriminate. }
    apply String.eqb_neq in Ek, Es.
    destruct (UpdateConfig_keys_first
                (mkClient "" "" did dclk dsig productionBaseURL dhttp urls)
                k s opts Ek Es Ho) as (_ & A & B).
    destruct (UpdateConfig _ k s opts) as [c' [e'|]]; [discriminate|].
    inversion H; subst c'. auto.
  - intros Hk Hs. unfold UpdateConfig.
    apply String.eqb_neq in Hk, Hs. rewrite Hk, Hs. reflexivity.
Qed.

Lemma New_result_witness :
  (forall c e, New 1 0 (fun _ => inl "sig") (fun _ => inr (ErrorString "offline"))
                 (fun _ => true) "k" "s" [WithUATEnvironment] <> (Some c, Some e)) /\
  (forall c, New 1 0 (fun _ => inl "sig") (fun _ => inr (ErrorString "offline"))
               (fun _ => true) "k" "s" [WithUATEnvironment] = (Some c, None) ->
     "k" <> "" /\ "s" <> "" /\ apiKey c = "k" /\ secretKey c = "s") /\
  New 1 0 (fun _ => inl "sig") (fun _ => inr (ErrorString "offline"))
    (fun _ => true) "k" "s" [] =
  (Some (mkClient "k" "s" 1 0 (fun _ => inl "sig") productionBaseURL
           (fun _ => inr (ErrorString "offline")) (fun _ => true)), None).
Proof.
  destruct (options_keep_keys "" None None None None) as (_ & U & _).
  destruct (New_result 1 0 (fun _ => inl "sig") (fun _ => inr (ErrorString "offline"))
              (fun _ => true) "k" "s" [WithUATEnvironment]
              ltac:(constructor; [exact U | constructor])) as (A & _ & C & D).
  split; [exact A|]. split; [exact C|].
  apply D; discriminate.
Defined.

(* ------------------------------------------------------------------ *)
(** ** Results of the private endpoints *)


Lemma marshal_envelope id method ts ps s k v :
  Request.marshal (Request.mkRequest id method ts (Some ps) s k v) = None <->
  json_ok (JObj ps) = false.
Proof.
  unfold Request.marshal. cbn [Request.Params].
  destruct (json_ok (JObj ps)); split; congruence.
Qed.


Lemma run_private codes c method version ps :
  run (id <- Generate c ;; ts <- NowMilli c ;;
       signAndPost codes c method version id ts ps) =
  signAndPost codes c method version (next_id c) (UnixMilli (clock_now c)) ps
    [EvGenerateID; EvClockNow].
Proof. reflexivity. Qed.


Lemma json_ok_map_get k v m :
  map_get k m = Some v -> json_ok v = false -> json_ok (JObj m) = false.
Proof.
  induction m as [|[k0 v0] m IH]; simpl; [discriminate|].
  destruct (String.eqb k k0).
  - intros H Hv. inversion H; subst v0. rewrite Hv. reflexivity.
  - intros H Hv. specialize (IH H Hv). simpl in IH. rewrite IH. apply andb_false_r.
Qed.










Lemma signAndPost_sign_failure codes c method version id ts ps tr e :
  signatureGenerator c (signed_request c method id ts ps) = inr e ->
  signAndPost codes c method version id ts ps tr =
  (tr ++ [EvSign (signed_request c method id ts ps)],
   inr (Wrapped "failed to create signature" e)).
Proof.
  intro H. unfold signed_request in *.
  unfold signAndPost, sign, bind, wrap, emit, from_sum, throw.
  rewrite H. reflexivity.
Qed.

(** When the signature generator fails with [e], each private endpoint
    (the history ones with a page size in [0, 200]) stops right after
    the signing attempt: it has taken an id, read the clock and asked
    for one signature, sends no HTTP request, and returns [e] wrapped
    as "failed to create signature". *)
Theorem private_sign_failure codes c e :
  (forall sr, signatureGenerator c sr = inr e) ->
  let pre := [EvGenerateID; EvClockNow] in
  let sr m ps := EvSign (signed_request c m (next_id c) (UnixMilli (clock_now c)) ps) in
  let err := inr (Wrapped "failed to create signature" e) in
  (forall req, 0 <= DepositHistory.PageSize req <= 200 ->
     run (GetDepositHistory codes c req) =
     (pre ++ [sr DepositHistory.methodGetDepositHistory (DepositHistory.build_params req)], err)) /\
  (forall req, 0 <= WithdrawalHistory.PageSize req <= 200 ->
     run (GetWithdrawalHistory codes c req) =
     (pre ++ [sr WithdrawalHistory.methodGetWithdrawalHistory
                (WithdrawalHistory.build_params req)], err)) /\
  (forall req, run (CreateWithdrawal codes c req) =
     (pre ++ [sr CreateWithdrawal.methodCreateWithdrawal (CreateWithdrawal.build_params req)], err)) /\
  (forall req, run (GetDepositAddress codes c req) =
     (pre ++ [sr DepositAddress.methodGetDepositAddress (DepositAddress.build_params req)], err)) /\
  (forall req, run (UserBalanceHistory codes c req) =
     (pre ++ [sr BalanceHistory.methodUserBalanceHistory (BalanceHistory.build_params req)], err)).
Proof.
  intro Hs. cbv zeta. split; [|split; [|split; [|split]]].
  - intros req Hb. unfold GetDepositHistory.
    destruct (Z.ltb_spec (DepositHistory.PageSize req) 0); [lia|].
    destruct (Z.gtb_spec (DepositHistory.PageSize req) 200); [lia|].
    rewrite run_private. apply signAndPost_sign_failure, Hs.
  - intros req Hb. unfold GetWithdrawalHistory.
    destruct (Z.ltb_spec (WithdrawalHistory.PageSize req) 0); [lia|].
    destruct (Z.gtb_spec (WithdrawalHistory.PageSize req) 200); [lia|].
    rewrite run_private. apply signAndPost_sign_failure, Hs.
  - intro req. unfold CreateWithdrawal. rewrite run_private.
    apply signAndPost_sign_failure, Hs.
  - intro req. unfold GetDepositAddress. rewrite run_private.
    apply signAndPost_sign_failure, Hs.
  - intro req. unfold UserBalanceHistory. rewrite run_private.
    apply signAndPost_sign_failure, Hs.
Qed.

Lemma private_sign_failure_witness :
  let c := mkClient "k" "s" 1 0 (fun _ => inr (ErrorString "no key")) productionBaseURL
             (fun _ => inl (mkHttpResponse 200 (Some (mkBaseResponse "1" "" "0"))))
             (fun _ => true) in
  run (GetDepositAddress test_codes c (DepositAddress.mkReq "BTC")) =
  ([EvGenerateID; EvClockNow;
    EvSign (signed_request c DepositAddress.methodGetDepositAddress 1 0
              (DepositAddress.build_params (DepositAddress.mkReq "BTC")))],
   inr (Wrapped "failed to create signature" (ErrorString "no key"))).
Proof.
  cbv zeta.
  destruct (private_sign_failure test_codes
    (mkClient "k" "s" 1 0 (fun _ => inr (ErrorString "no key")) productionBaseURL
       (fun _ => inl (mkHttpResponse 200 (Some (mkBaseResponse "1" "" "0"))))
       (fun _ => true)) (ErrorString "no key") (fun sr => eq_refl))
    as (_ & _ & _ & D & _).
  apply D.
Defined.

Lemma signAndPost_marshal_failure codes c method version id ts ps tr s :
  signatureGenerator c (signed_request c method id ts ps) = inl s ->
  json_ok (JObj ps) = false ->
  signAndPost codes c method version id ts ps tr =
  (tr ++ [EvSign (signed_request c method id ts ps)],
   inr (Wrapped "failed to execute post request"
          (Wrapped "failed to marshal request body" (ErrorString "json: unsupported value")))).
Proof.
  intros H Hj. unfold signed_request in *.
  unfold signAndPost, sign, Post, doRequest, bind, wrap, emit, from_sum, ret, throw.
  rewrite H.
  destruct (Request.marshal (Request.mkRequest id method ts (Some ps) s (apiKey c) version))
    eqn:Em; [|reflexivity].
  apply (marshal_envelope id method ts ps s (apiKey c) version) in Hj. congruence.
Qed.

Lemma create_amount_param req :
  PrimFloat.eqb (CreateWithdrawal.Amount req) 0%float = false ->
  map_get "amount" (CreateWithdrawal.build_params req) =
  Some (JFloat (CreateWithdrawal.Amount req)).
Proof.
  intro Ha. unfold CreateWithdrawal.build_params; cbv zeta. rewrite Ha.
  lookup_params.
Qed.

(** [CreateWithdrawal] with an amount that passes its [req.Amount != 0]
    test but that [json.Marshal] refuses (NaN or an infinity) takes an
    id, reads the clock and has the request signed, then fails to
    encode the body: it returns the marshal error and sends nothing. *)
Theorem CreateWithdrawal_unencodable_amount codes c req s :
  PrimFloat.eqb (CreateWithdrawal.Amount req) 0%float = false ->
  float_ok (CreateWithdrawal.Amount req) = false ->
  signatureGenerator c (signed_request c CreateWithdrawal.methodCreateWithdrawal
    (next_id c) (UnixMilli (clock_now c)) (CreateWithdrawal.build_params req)) = inl s ->
  run (CreateWithdrawal codes c req) =
  ([EvGenerateID; EvClockNow;
    EvSign (signed_request c CreateWithdrawal.methodCreateWithdrawal
              (next_id c) (UnixMilli (clock_now c)) (CreateWithdrawal.build_params req))],
   inr (Wrapped "failed to execute post request"
          (Wrapped "failed to marshal request body" (ErrorString "json: unsupported value")))).
Proof.
  intros Ha Hf Hs. unfold CreateWithdrawal. rewrite run_private.
  rewrite (signAndPost_marshal_failure _ _ _ _ _ _ _ _ s Hs); [reflexivity|].
  apply (json_ok_map_get "amount" (JFloat (CreateWithdrawal.Amount req)));
    [apply create_amount_param; exact Ha | exact Hf].
Qed.

Lemma CreateWithdrawal_unencodable_amount_witness :
  run (CreateWithdrawal test_codes ok_client nan_order) =
  ([EvGenerateID; EvClockNow;
    EvSign (signed_request ok_client CreateWithdrawal.methodCreateWithdrawal
              (next_id ok_client) (UnixMilli (clock_now ok_client))
              (CreateWithdrawal.build_params nan_order))],
   inr (Wrapped "failed to execute post request"
          (Wrapped "failed to marshal request body" (ErrorString "json: unsupported value")))).
Proof.
  apply (CreateWithdrawal_unencodable_amount test_codes ok_client nan_order "signature");
    reflexivity.
Defined.

(* ------------------------------------------------------------------ *)
(** ** Where the private endpoints send their requests *)

Lemma signAndPost_http c method version id ts ps hr :
  In (EvHttp hr) (signAndPost_events c method version id ts ps) ->
  Verb hr = "POST" /\
  URL hr = BaseURL c +++ (if String.eqb version "" then Request.V1 else version) +++ method /\
  Query hr = [] /\
  exists b, Body hr = Some b /\ field "version" b = Some (JStr version).
Proof.
  unfold signAndPost_events. simpl. intros [H|Hin]; [discriminate|].
  destruct (signatureGenerator c _); [|contradiction].
  destruct (Request.marshal _) as [b|] eqn:Em; [|contradiction].
  destruct (url_ok c _); [|contradiction].
  destruct Hin as [H|[]]. inversion H; subst hr. simpl.
  split; [reflexivity|]. split; [reflexivity|]. split; [reflexivity|].
  exists b. split; [reflexivity|].
  destruct (marshal_fields _ _ Em) as (_ & _ & Hv & _). exact Hv.
Qed.

Lemma private_http c method version ps hr :
  In (EvHttp hr) ([EvGenerateID; EvClockNow] ++
                  signAndPost_events c method version (next_id c) (UnixMilli (clock_now c)) ps) ->
  Verb hr = "POST" /\
  URL hr = BaseURL c +++ (if String.eqb version "" then Request.V1 else version) +++ method /\
  Query hr = [] /\
  exists b, Body hr = Some b /\ field "version" b = Some (JStr version).
Proof.
  simpl. intros [H|[H|H]]; try discriminate. apply signAndPost_http with (1 := H).
Qed.

(** Every private endpoint POSTs, with no query, to the base URL
    followed by "exchange/v1/" and its method: four of them leave the
    envelope's [Version] empty, so [doRequest] falls back to
    [api.V1], and [UserBalanceHistory] sets [api.V1] itself. The
    transmitted body carries that [version] field: [""] for the four,
    "exchange/v1/" for [UserBalanceHistory]. *)
Theorem private_requests_url codes c :
  (forall req hr, In (EvHttp hr) (fst (run (GetDepositHistory codes c req))) ->
     Verb hr = "POST" /\ Query hr = [] /\
     URL hr = BaseURL c +++ "exchange/v1/" +++ DepositHistory.methodGetDepositHistory /\
     exists b, Body hr = Some b /\ field "version" b = Some (JStr "")) /\
  (forall req hr, In (EvHttp hr) (fst (run (GetWithdrawalHistory codes c req))) ->
     Verb hr = "POST" /\ Query hr = [] /\
     URL hr = BaseURL c +++ "exchange/v1/" +++ WithdrawalHistory.methodGetWithdrawalHistory /\
     exists b, Body hr = Some b /\ field "version" b = Some (JStr "")) /\
  (forall req hr, In (EvHttp hr) (fst (run (CreateWithdrawal codes c req))) ->
     Verb hr = "POST" /\ Query hr = [] /\
     URL hr = BaseURL c +++ "exchange/v1/" +++ CreateWithdrawal.methodCreateWithdrawal /\
     exists b, Body hr = Some b /\ field "version" b = Some (JStr "")) /\
  (forall req hr, In (EvHttp hr) (fst (run (GetDepositAddress codes c req))) ->
     Verb hr = "POST" /\ Query hr = [] /\
     URL hr = BaseURL c +++ "exchange/v1/" +++ DepositAddress.methodGetDepositAddress /\
     exists b, Body hr = Some b /\ field "version" b = Some (JStr "")) /\
  (forall req hr, In (EvHttp hr) (fst (run (UserBalanceHistory codes c req))) ->
     Verb hr = "POST" /\ Query hr = [] /\
     URL hr = BaseURL c +++ "exchange/v1/" +++ BalanceHistory.methodUserBalanceHistory /\
     exists b, Body hr = Some b /\ field "version" b = Some (JStr "exchange/v1/")).
Proof.
  split; [|split; [|split; [|split]]]; intros req hr H.
  - rewrite GetDepositHistory_trace in H.
    destruct (_ || _); [contradiction|].
    destruct (private_http _ _ _ _ _ H) as (A & B & C & D). auto.
  - rewrite GetWithdrawalHistory_trace in H.
    destruct (_ || _); [contradiction|].
    destruct (private_http _ _ _ _ _ H) as (A & B & C & D). auto.
  - unfold CreateWithdrawal in H. rewrite prefix_signAndPost in H.
    destruct (private_http _ _ _ _ _ H) as (A & B & C & D). auto.
  - unfold GetDepositAddress in H. rewrite prefix_signAndPost in H.
    destruct (private_http _ _ _ _ _ H) as (A & B & C & D). auto.
  - unfold UserBalanceHistory in H. rewrite prefix_signAndPost in H.
    destruct (private_http _ _ _ _ _ H) as (A & B & C & D). auto.
Qed.

Lemma private_requests_url_witness :
  let hr := mkHttpRequest "POST"
              "https://api.crypto.com/v2/exchange/v1/private/user-balance-history" []
              json_header
              (Some (JObj [("id", JInt 1); ("method", JStr "private/user-balance-history");
                           ("nonce", JInt 1668066540018);
                           ("params", JObj [("timeframe", JStr "H1")]);
                           ("sig", JStr "signature"); ("api_key", JStr "k");
                           ("version", JStr "exchange/v1/")])) in
  In (EvHttp hr) (fst (run (UserBalanceHistory test_codes ok_client
                              (BalanceHistory.mkReq "H1" zero_time 0)))) /\
  URL hr = BaseURL ok_client +++ "exchange/v1/" +++ BalanceHistory.methodUserBalanceHistory.
Proof.
  cbv zeta.
  assert (Hin : In (EvHttp (mkHttpRequest "POST"
              "https://api.crypto.com/v2/exchange/v1/private/user-balance-history" []
              json_header
              (Some (JObj [("id", JInt 1); ("method", JStr "private/user-balance-history");
                           ("nonce", JInt 1668066540018);
                           ("params", JObj [("timeframe", JStr "H1")]);
                           ("sig", JStr "signature"); ("api_key", JStr "k");
                           ("version", JStr "exchange/v1/")]))))
              (fst (run (UserBalanceHistory test_codes ok_client
                           (BalanceHistory.mkReq "H1" zero_time 0))))).
  { vm_compute. right; right; right; left. reflexivity. }
  split; [exact Hin|].
  destruct (private_requests_url test_codes ok_client) as (_ & _ & _ & _ & E).
  destruct (E _ _ Hin) as (_ & _ & U & _). exact U.
Defined.

(** A client made by [New] with no option sends its private requests
    to "https://api.crypto.com/v2/exchange/v1/" followed by the method:
    the production base URL already ends in "v2/". *)
Theorem New_default_private_url did dclk dsig dhttp urls k s codes :
  k <> "" -> s <> "" ->
  exists c, New did dclk dsig dhttp urls k s [] = (Some c, None) /\
    forall req hr, In (EvHttp hr) (fst (run (GetDepositAddress codes c req))) ->
      URL hr = "https://api.crypto.com/v2/exchange/v1/private/get-deposit-address".
Proof.
  intros Hk Hs.
  destruct (New_result did dclk dsig dhttp urls k s [] (Forall_nil _)) as (_ & _ & _ & D).
  eexists. split; [apply D; assumption|].
  intros req hr H.
  destruct (private_requests_url codes
              (mkClient k s did dclk dsig productionBaseURL dhttp urls))
    as (_ & _ & _ & A & _).
  destruct (A req hr H) as (_ & _ & E & _). rewrite E. reflexivity.
Qed.

Lemma New_default_private_url_witness :
  exists c, New 1 0 (fun _ => inl "sig") (fun _ => inr (ErrorString "offline"))
              (fun _ => true) "k" "s" [] = (Some c, None) /\
    forall req hr, In (EvHttp hr) (fst (run (GetDepositAddress test_codes c req))) ->
      URL hr = "https://api.crypto.com/v2/exchange/v1/private/get-deposit-address".
Proof.
  apply (New_default_private_url 1 0 (fun _ => inl "sig") (fun _ => inr (ErrorString "offline"))
           (fun _ => true) "k" "s" test_codes); discriminate.
Defined.

(* ------------------------------------------------------------------ *)
(** ** Params of the other private endpoints *)

Ltac other_keys Hk :=
  repeat match goal with
         | |- context [String.eqb ?k (String ?a ?b)] =>
             lazymatch k with
             | String _ _ => fail
             | _ =>
                 let E := fresh "E" in
                 assert (E : String.eqb k (String a b) = false)
                   by (apply String.eqb_neq; intro; subst; apply Hk; simpl; tauto);
                 rewrite E
             end
         end.

(** The params map of [CreateWithdrawal] holds each key exactly when
    its field is set (a non-empty string, an amount other than 0,
    which NaN is), with that field's value, and no other key. *)
Theorem CreateWithdrawal_params_shape req :
  let p := CreateWithdrawal.build_params req in
  map_get "currency" p = (if String.eqb (CreateWithdrawal.Currency req) "" then None
                          else Some (JStr (CreateWithdrawal.Currency req))) /\
  map_get "client_wid" p = (if String.eqb (CreateWithdrawal.ClientWid req) "" then None
                            else Some (JStr (CreateWithdrawal.ClientWid req))) /\
  map_get "amount" p = (if PrimFloat.eqb (CreateWithdrawal.Amount req) 0%float then None
                        else Some (JFloat (CreateWithdrawal.Amount req))) /\
  map_get "address" p = (if String.eqb (CreateWithdrawal.Address req) "" then None
                         else Some (JStr (CreateWithdrawal.Address req))) /\
  map_get "address_tag" p = (if String.eqb (CreateWithdrawal.AddressTag req) "" then None
                             else Some (JStr (CreateWithdrawal.AddressTag req))) /\
  map_get "network_id" p = (if String.eqb (CreateWithdrawal.NetworkId req) "" then None
                            else Some (JStr (CreateWithdrawal.NetworkId req))) /\
  (forall k, ~ In k ["currency"; "client_wid"; "amount"; "address"; "address_tag";
                     "network_id"] -> map_get k p = None).
Proof.
  unfold CreateWithdrawal.build_params; cbv zeta.
  split; [lookup_params|]. split; [lookup_params|]. split; [lookup_params|].
  split; [lookup_params|]. split; [lookup_params|]. split; [lookup_params|].
  intros k Hk.
  repeat match goal with
         | |- context [if ?b then _ else _] =>
             lazymatch b with
             | String.eqb (String _ _) (String _ _) => fail
             | String.eqb k _ => fail
             | _ => destruct b
             end
         end;
  rewrite ?map_get_set; other_keys Hk; reflexivity.
Qed.

(** The params maps of [GetDepositAddress] and [UserBalanceHistory]:
    each key is there exactly when its field is set (a non-empty
    string, a non-zero limit, a non-zero end time, sent in
    milliseconds), and no other key is. *)
Theorem address_balance_params_shape a b :
  let p := DepositAddress.build_params a in
  let q := BalanceHistory.build_params b in
  map_get "currency" p = (if String.eqb (DepositAddress.Currency a) "" then None
                          else Some (JStr (DepositAddress.Currency a))) /\
  (forall k, k <> "currency" -> map_get k p = None) /\
  map_get "timeframe" q = (if String.eqb (BalanceHistory.Timeframe b) "" then None
                           else Some (JStr (BalanceHistory.Timeframe b))) /\
  map_get "limit" q = (if BalanceHistory.Limit b =? 0 then None
                       else Some (JInt (BalanceHistory.Limit b))) /\
  map_get "end_time" q = (if IsZero (BalanceHistory.EndTime b) then None
                          else Some (JInt (UnixMilli (BalanceHistory.EndTime b)))) /\
  (forall k, ~ In k ["timeframe"; "limit"; "end_time"] -> map_get k q = None).
Proof.
  unfold DepositAddress.build_params, BalanceHistory.build_params; cbv zeta.
  split; [lookup_params|]. split.
  { intros k Hk. destruct (String.eqb (DepositAddress.Currency a) ""); [reflexivity|].
    rewrite map_get_set. apply String.eqb_neq in Hk. rewrite Hk. reflexivity. }
  split; [lookup_params|]. split; [lookup_params|]. split; [lookup_params|].
  intros k Hk.
  repeat match goal with
         | |- context [if ?b then _ else _] =>
             lazymatch b with
             | String.eqb (String _ _) (String _ _) => fail
             | String.eqb k _ => fail
             | _ => destruct b
             end
         end;
  rewrite ?map_get_set; other_keys Hk; reflexivity.
Qed.

Lemma CreateWithdrawal_params_shape_witness :
  map_get "fee" (CreateWithdrawal.build_params withdrawal_order) = None /\
  map_get "amount" (CreateWithdrawal.build_params withdrawal_order) = Some (JFloat 1.5) /\
  map_get "client_wid" (CreateWithdrawal.build_params withdrawal_order) = None.
Proof.
  destruct (CreateWithdrawal_params_shape withdrawal_order) as (_ & W & A & _ & _ & _ & O).
  split; [|split].
  - apply O. simpl. intro H. repeat destruct H as [H|H]; try discriminate. exact H.
  - rewrite A. reflexivity.
  - rewrite W. reflexivity.
Defined.

Lemma address_balance_params_shape_witness :
  map_get "network" (DepositAddress.build_params (DepositAddress.mkReq "BTC")) = None /\
  map_get "end_time" (BalanceHistory.build_params
                        (BalanceHistory.mkReq "H1" (1668066540018 * 10 ^ 6) 0)) =
    Some (JInt 1668066540018) /\
  map_get "timeframes" (BalanceHistory.build_params
                          (BalanceHistory.mkReq "H1" (1668066540018 * 10 ^ 6) 0)) = None.
Proof.
  destruct (address_balance_params_shape (DepositAddress.mkReq "BTC")
              (BalanceHistory.mkReq "H1" (1668066540018 * 10 ^ 6) 0))
    as (_ & P & _ & _ & E & O).
  split; [|split].
  - apply P. discriminate.
  - rewrite E. reflexivity.
  - apply O. simpl. intro H. repeat destruct H as [H|H]; try discriminate. exact H.
Defined.

(* ------------------------------------------------------------------ *)
(** ** No retries *)

Lemma signAndPost_events_one c method version id ts ps :
  (http_count ([EvGenerateID; EvClockNow] ++ signAndPost_events c method version id ts ps) <= 1)%nat.
Proof.
  unfold signAndPost_events, http_count. simpl.
  destruct (signatureGenerator c _); simpl; [|lia].
  destruct (Request.marshal _); simpl; [|lia].
  destruct (url_ok c _); simpl; lia.
Qed.

(** No endpoint retries: a call sends at most one HTTP request, whatever
    the collaborators return. *)
Theorem at_most_one_request codes c :
  (forall req, (http_count (fst (run (GetDepositHistory codes c req))) <= 1)%nat) /\
  (forall req, (http_count (fst (run (GetWithdrawalHistory codes c req))) <= 1)%nat) /\
  (forall req, (http_count (fst (run (CreateWithdrawal codes c req))) <= 1)%nat) /\
  (forall req, (http_count (fst (run (GetDepositAddress codes c req))) <= 1)%nat) /\
  (forall req, (http_count (fst (run (UserBalanceHistory codes c req))) <= 1)%nat) /\
  (http_count (fst (run (GetInstruments codes c))) <= 1)%nat /\
  (forall i d, (http_count (fst (run (GetBook codes c i d))) <= 1)%nat) /\
  (forall i, (http_count (fst (run (GetTickers codes c i))) <= 1)%nat).
Proof.
  repeat split.
  - intro req. rewrite GetDepositHistory_trace.
    destruct (_ || _); [unfold http_count; simpl; lia | apply signAndPost_events_one].
  - intro req. rewrite GetWithdrawalHistory_trace.
    destruct (_ || _); [unfold http_count; simpl; lia | apply signAndPost_events_one].
  - intro req. unfold CreateWithdrawal. rewrite prefix_signAndPost. apply signAndPost_events_one.
  - intro req. unfold GetDepositAddress. rewrite prefix_signAndPost. apply signAndPost_events_one.
  - intro req. unfold UserBalanceHistory. rewrite prefix_signAndPost. apply signAndPost_events_one.
  - rewrite GetInstruments_trace. cbv zeta. unfold http_count.
    destruct (url_ok c _); simpl; lia.
  - intros i d. rewrite GetBook_trace. cbv zeta. unfold http_count.
    destruct (url_ok c _); simpl; lia.
  - intro i. rewrite GetTickers_trace. cbv zeta. unfold http_count.
    destruct (url_ok c _); simpl; lia.
Qed.

(* ------------------------------------------------------------------ *)
(** ** Results of the public endpoints *)



(* ------------------------------------------------------------------ *)
(** ** Decimal text and [ParseInt64] *)

Lemma digit_char n :
  0 <= n < 10 ->
  digit_val (ascii_of_nat (48 + Z.to_nat n)) = Some n.
Proof.
  intro H. unfold digit_val.
  rewrite Ascii.nat_ascii_embedding by lia.
  destruct (Nat.leb_spec 48 (48 + Z.to_nat n)); [|lia].
  destruct (Nat.leb_spec (48 + Z.to_nat n) 57); [|lia].
  simpl. f_equal. lia.
Qed.

Lemma parse_pos_dec_aux fuel n acc :
  0 <= n < 10 ^ Z.of_nat fuel ->
  parse_digits (pos_dec_aux fuel n acc) 0 = parse_digits acc n.
Proof.
  revert n acc. induction fuel as [|f IH]; intros n acc H.
  - simpl in H. cbn [pos_dec_aux]. replace n with 0 by lia. reflexivity.
  - cbn [pos_dec_aux]. rewrite Nat2Z.inj_succ, Z.pow_succ_r in H by lia.
    assert (Hm : 0 <= n mod 10 < 10) by (apply Z.mod_pos_bound; lia).
    destruct (Z.ltb_spec n 10).
    + cbn [parse_digits]. rewrite digit_char by exact Hm.
      f_equal. rewrite Z.mod_small by lia. lia.
    + rewrite IH.
      * cbn [parse_digits]. rewrite digit_char by exact Hm. f_equal.
        rewrite (Z.div_mod n 10) at 3 by lia. lia.
      * split; [apply Z.div_pos; lia|].
        apply Z.div_lt_upper_bound; lia.
Qed.

Lemma pos_dec_aux_first fuel n acc :
  (fuel > 0)%nat -> 0 <= n -> starts_with_digit (pos_dec_aux fuel n acc).
Proof.
  revert n acc. induction fuel as [|f IH]; intros n acc Hf Hn; [lia|].
  cbn [pos_dec_aux]. destruct (Z.ltb_spec n 10).
  - cbn [starts_with_digit]. rewrite digit_char by (apply Z.mod_pos_bound; lia). discriminate.
  - destruct f as [|f'].
    + cbn [pos_dec_aux starts_with_digit].
      rewrite digit_char by (apply Z.mod_pos_bound; lia). discriminate.
    + apply IH; [lia|]. apply Z.div_pos; lia.
Qed.

Lemma pos_below_size p : Zpos p < 10 ^ Z.of_nat (Pos.size_nat p).
Proof.
  assert (H2 : Zpos p < 2 ^ Z.of_nat (Pos.size_nat p)).
  { induction p as [p IH|p IH|]; simpl Pos.size_nat;
      rewrite ?Nat2Z.inj_succ, ?Z.pow_succ_r by lia; lia. }
  eapply Z.lt_le_trans; [exact H2|].
  apply Z.pow_le_mono_l. lia.
Qed.

Lemma parse_uint_pos p :
  parse_uint (pos_dec_aux (Pos.size_nat p) (Zpos p) "") = Some (Zpos p).
Proof.
  assert (Hf : (Pos.size_nat p > 0)%nat) by (destruct p; simpl; lia).
  pose proof (pos_dec_aux_first _ (Zpos p) "" Hf ltac:(lia)) as Hd.
  unfold parse_uint.
  destruct (pos_dec_aux (Pos.size_nat p) (Zpos p) "") eqn:E; [contradiction|].
  rewrite <- E. rewrite parse_pos_dec_aux; [reflexivity|].
  pose proof (pos_below_size p). lia.
Qed.

Lemma ParseInt64_minus s :
  ParseInt64 ("-" +++ s) =
  match parse_uint s with
  | None => None
  | Some un => if un <=? 2 ^ 63 then Some (- un) else None
  end.
Proof. reflexivity. Qed.

Lemma ParseInt64_dec z :
  ParseInt64 (dec z) = if (- 2 ^ 63 <=? z) && (z <? 2 ^ 63) then Some z else None.
Proof.
  destruct z as [|p|p].
  - reflexivity.
  - unfold dec.
    assert (Hf : (Pos.size_nat p > 0)%nat) by (destruct p; simpl; lia).
    pose proof (pos_dec_aux_first _ (Zpos p) "" Hf ltac:(lia)) as Hd.
    pose proof (parse_uint_pos p) as Hp.
    destruct (pos_dec_aux (Pos.size_nat p) (Zpos p) "") as [|d r] eqn:E; [contradiction|].
    unfold ParseInt64.
    assert (Hplus : Ascii.eqb d "+"%char = false).
    { destruct (Ascii.eqb_spec d "+"%char); [subst d; contradiction Hd; reflexivity | reflexivity]. }
    assert (Hminus : Ascii.eqb d "-"%char = false).
    { destruct (Ascii.eqb_spec d "-"%char); [subst d; contradiction Hd; reflexivity | reflexivity]. }
    rewrite Hplus, Hminus, Hp.
    destruct (Z.leb_spec (- 2 ^ 63) (Zpos p)); [|lia]. reflexivity.
  - unfold dec. rewrite ParseInt64_minus, parse_uint_pos.
    assert (E2 : (Zneg p <? 2 ^ 63) = true) by (apply Z.ltb_lt; lia).
    rewrite E2, andb_true_r.
    destruct (Z.leb_spec (Zpos p) (2 ^ 63)), (Z.leb_spec (- 2 ^ 63) (Zneg p));
      try lia; reflexivity.
Qed.

(** An error reply whose code is written in decimal is classified with
    that code when it fits in an int64; a code outside the int64 range
    is rejected by [json.Number.Int64] and gives the "invalid response
    code" error with code 0. *)
Theorem CheckErrorResponse_decimal_code codes st code :
  st >= 400 ->
  Api.CheckErrorResponse codes st (dec code) =
  Some (if (- 2 ^ 63 <=? code) && (code <? 2 ^ 63) then NewResponseError codes st code
        else ResponseError 0 st (Some (ErrorString ("invalid response code: " +++ dec code)))).
Proof.
  intro H. rewrite CheckErrorResponse_from_400 by exact H.
  rewrite ParseInt64_dec. destruct (_ && _); reflexivity.
Qed.

Lemma CheckErrorResponse_decimal_code_witness :
  Api.CheckErrorResponse test_codes 418 (dec 10003) =
    Some (NewResponseError test_codes 418 10003) /\
  Api.CheckErrorResponse test_codes 500 (dec (2 ^ 63)) =
    Some (ResponseError 0 500 (Some (ErrorString ("invalid response code: " +++ dec (2 ^ 63))))).
Proof.
  split.
  - rewrite (CheckErrorResponse_decimal_code test_codes 418 10003) by lia. reflexivity.
  - rewrite (CheckErrorResponse_decimal_code test_codes 500 (2 ^ 63)) by lia. reflexivity.
Defined.
